(** * genshi/_speedups.c: the C implementation of [escape]

    A shallow embedding of the extension module [genshi._speedups] and the
    proofs of its specification.

    The module has three functions: [init_constants] fills two static
    tables indexed by code point, [escape_unicode] is the two-pass scalar
    escaper over a text buffer, [escape] is the dispatcher exported to
    Python.  The embedding keeps the shape of the C text:

    - a pointer into a buffer is an offset ([nat]) into the list of its
      code units, and a buffer read through [PyUnicode_AS_UNICODE] ends
      with its terminating zero;
    - a code unit ([Py_UNICODE]) is an [N], a [Py_ssize_t] counter is a
      [Z]; the counters hold sums of lengths of texts that are in memory
      and are taken not to overflow;
    - objects live in a heap keyed by their address, [NULL] is [None],
      and the error indicator is a field of the interpreter state;
    - a read or write outside a buffer or a table, and the dereference
      of [NULL], end the run in [Crash];
    - the loops take fuel, and the theorems give the fuel that is enough;
    - the entries of the CPython API that run Python code ([PyObject_Str],
      attribute lookup, calls) are parameters: the theorems hold for
      every interpreter. *)

From stdpp Require Import gmap strings list pretty.
From Stdlib Require Import ZArith NArith Lia.

Set Warnings "-clear-no-such-hyp".

Open Scope Z_scope.

(** ** Outcomes of a run *)

Inductive outcome (A : Type) : Type :=
| Ret (a : A)       (* the C function returned *)
| Crash             (* undefined behaviour: wild read or write, NULL dereference *)
| Timeout.          (* the model ran out of fuel *)
Arguments Ret {A} a.
Arguments Crash {A}.
Arguments Timeout {A}.

Definition obind {A B} (x : outcome A) (k : A -> outcome B) : outcome B :=
  match x with
  | Ret a => k a
  | Crash => Crash
  | Timeout => Timeout
  end.

Definition of_option {A} (x : option A) : outcome A :=
  match x with
  | Some a => Ret a
  | None => Crash
  end.

(** ** Code units and the escape tables *)

(** [Py_UNICODE]: one code unit of a text buffer. *)
Abbreviation Py_UNICODE := N.

Definition ESCAPED_CHARS_TABLE_SIZE : N := 63%N.

(** The character literals of the C text. *)
Definition chr (a : Ascii.ascii) : Py_UNICODE := Ascii.N_of_ascii a.
Definition DQUOTE : Py_UNICODE := 34%N.   (* double quote *)
Definition SQUOTE : Py_UNICODE := 39%N.   (* apostrophe *)
Definition AMP : Py_UNICODE := 38%N.      (* ampersand *)
Definition LT : Py_UNICODE := 60%N.       (* less-than *)
Definition GT : Py_UNICODE := 62%N.       (* greater-than *)

(** The code units of an ASCII literal. *)
Definition units (x : string) : list Py_UNICODE :=
  chr <$> String.list_ascii_of_string x.

(** [UNICHR(x)]: the buffer of the text object decoded from the literal
    [x]: its code units followed by the terminating zero. *)
Definition UNICHR (x : string) : list Py_UNICODE := units x ++ [0%N].

(** The types of Python objects.  A class statement gives a
    [PyHeapType]; [tp_mro] is the method resolution order
    (single inheritance). *)
Inductive pytype : Type :=
| PyBaseObject_Type
| PyLong_Type
| PyBool_Type
| PyFloat_Type
| PyUnicode_Type
| PyNone_Type
| PyHeapType (name : string) (base : pytype).

Global Instance pytype_eq_dec : EqDecision pytype.
Proof. solve_decision. Defined.

Fixpoint tp_mro (t : pytype) : list pytype :=
  match t with
  | PyBaseObject_Type => [PyBaseObject_Type]
  | PyBool_Type => [PyBool_Type; PyLong_Type; PyBaseObject_Type]
  | PyHeapType _ base => t :: tp_mro base
  | _ => [t; PyBaseObject_Type]
  end.

(** The module's three static variables.  A static array is a list of
    [ESCAPED_CHARS_TABLE_SIZE] cells; a cell of [escaped_chars_repl] is a
    pointer, [None] for [NULL], otherwise the buffer it points to. *)
Record globals : Type := {
  markup : option pytype;
  escaped_chars_delta_len : list Z;
  escaped_chars_repl : list (option (list Py_UNICODE))
}.

(** Static storage is zero-initialised. *)
Definition static_globals : globals := {|
  markup := None;
  escaped_chars_delta_len := replicate (N.to_nat ESCAPED_CHARS_TABLE_SIZE) 0;
  escaped_chars_repl := replicate (N.to_nat ESCAPED_CHARS_TABLE_SIZE) None
|}.

(** [a[c] = v] with a character literal [c] as index. *)
Definition store {A} (a : list A) (c : Py_UNICODE) (v : A) : list A :=
  <[N.to_nat c := v]> a.

(** A module object, as far as [init_constants] looks at it: what
    looking up an attribute gives. *)
Definition pymodule := string -> option pytype.

(** [init_constants]: [PyImport_ImportModule] is the import machinery;
    the result is the C [int] returned and the globals left behind. *)
Definition init_constants (PyImport_ImportModule : string -> option pymodule)
    (g : globals) : Z * globals :=
  (* mapping of characters to replace *)
  let repl := escaped_chars_repl g in
  let repl := store repl DQUOTE (Some (UNICHR "&#34;")) in
  let repl := store repl SQUOTE (Some (UNICHR "&#39;")) in
  let repl := store repl AMP (Some (UNICHR "&amp;")) in
  let repl := store repl LT (Some (UNICHR "&lt;")) in
  let repl := store repl GT (Some (UNICHR "&gt;")) in
  (* lengths of those characters when replaced - 1 *)
  let dlen := replicate (length (escaped_chars_delta_len g)) 0 in
  let dlen := store (store (store dlen AMP 4) SQUOTE 4) DQUOTE 4 in
  let dlen := store (store dlen GT 3) LT 3 in
  let g := {| markup := markup g;
              escaped_chars_delta_len := dlen;
              escaped_chars_repl := repl |} in
  (* import markup type so that we can mark the return value *)
  match PyImport_ImportModule "genshi.core" with
  | None => (0, g)
  | Some module =>
      (1, {| markup := module "Markup";
             escaped_chars_delta_len := escaped_chars_delta_len g;
             escaped_chars_repl := escaped_chars_repl g |})
  end.

(** ** The scalar escaper's loops *)

Section Escaper.

Variable g : globals.

(** The guard shared by both passes: the code unit is below the table
    size and, unless [quotes] is set, is neither of the two quote
    characters. *)
Definition candidate (quotes : Z) (c : Py_UNICODE) : bool :=
  (c <? ESCAPED_CHARS_TABLE_SIZE)%N &&
  (negb (quotes =? 0) || (negb (c =? DQUOTE)%N && negb (c =? SQUOTE)%N)).

(** [escaped_chars_delta_len[c]] *)
Definition delta_len_at (c : Py_UNICODE) : outcome Z :=
  of_option (escaped_chars_delta_len g !! N.to_nat c).

(** [escaped_chars_repl[c]] *)
Definition repl_at (c : Py_UNICODE) : outcome (option (list Py_UNICODE)) :=
  of_option (escaped_chars_repl g !! N.to_nat c).

(** The first loop of [escape_unicode]: [mem] is the input buffer with
    its terminator, [inp] and [inp_end] are offsets into it.  Returns
    [(delta, erepl)]. *)
Fixpoint measure_loop (fuel : nat) (mem : list Py_UNICODE) (inp_end : nat)
    (quotes : Z) (inp : nat) (delta erepl : Z) : outcome (Z * Z) :=
  match fuel with
  | O => Timeout
  | S fuel =>
      obind (of_option (mem !! inp)) (fun c =>
      if negb (c =? 0)%N || (inp <? inp_end)%nat then
        if candidate quotes c then
          obind (delta_len_at c) (fun d =>
          measure_loop fuel mem inp_end quotes (S inp)
            (delta + d) (erepl + (if d =? 0 then 0 else 1)))
        else measure_loop fuel mem inp_end quotes (S inp) delta erepl
      else Ret (delta, erepl))
  end.

(** The inner loop of the second pass, looking for the next
    substitution.  Returns [(next_escp, delta_len)]. *)
Fixpoint find_next (fuel : nat) (mem : list Py_UNICODE) (inp_end : nat)
    (quotes : Z) (next_escp : nat) (delta_len : Z) : outcome (nat * Z) :=
  match fuel with
  | O => Timeout
  | S fuel =>
      if (next_escp <? inp_end)%nat then
        obind (of_option (mem !! next_escp)) (fun c =>
        if candidate quotes c then
          obind (delta_len_at c) (fun d =>
          if negb (d =? 0) then Ret (next_escp, d + 1)
          else find_next fuel mem inp_end quotes (S next_escp) d)
        else find_next fuel mem inp_end quotes (S next_escp) delta_len)
      else Ret (next_escp, delta_len)
  end.

(** [Py_UNICODE_COPY(dst + outp, src + inp, len)]: a [memcpy] of [len]
    code units.  Reading outside [src] or writing outside [dst] is a
    crash, and so is a negative [len] (a huge [size_t]). *)
Definition Py_UNICODE_COPY (dst : list Py_UNICODE) (outp : nat)
    (src : list Py_UNICODE) (inp : nat) (len : Z) : outcome (list Py_UNICODE) :=
  if len <? 0 then Crash
  else
    let k := Z.to_nat len in
    if (inp + k <=? length src)%nat && (outp + k <=? length dst)%nat then
      Ret (take outp dst ++ take k (drop inp src) ++ drop (outp + k) dst)
    else Crash.

(** The second pass: [while (erepl-- > 0) { ... }].  [out] is the output
    buffer.  Returns the buffer and the final [(outp, inp)]. *)
Fixpoint fill_loop (fuel ifuel : nat) (mem : list Py_UNICODE) (inp_end : nat)
    (quotes : Z) (out : list Py_UNICODE) (outp inp : nat) (erepl delta_len : Z)
    : outcome (list Py_UNICODE * nat * nat) :=
  match fuel with
  | O => Timeout
  | S fuel =>
      if 0 <? erepl then
        (* look for the next substitution *)
        obind (find_next ifuel mem inp_end quotes inp delta_len)
          (fun '(next_escp, delta_len) =>
        (* copy unescaped chars between inp and next_escp *)
        obind (if (inp <? next_escp)%nat
               then obind (Py_UNICODE_COPY out outp mem inp
                             (Z.of_nat next_escp - Z.of_nat inp))
                      (fun out => Ret (out, (outp + (next_escp - inp))%nat))
               else Ret (out, outp))
          (fun '(out, outp) =>
        (* escape 'next_escp' *)
        obind (of_option (mem !! next_escp)) (fun c =>
        obind (repl_at c) (fun r =>
        obind (of_option r) (fun src =>
        obind (Py_UNICODE_COPY out outp src 0 delta_len) (fun out =>
        fill_loop fuel ifuel mem inp_end quotes out
          (outp + Z.to_nat delta_len)%nat (S next_escp)
          (erepl - 1) delta_len))))))
      else Ret (out, outp, inp)
  end.

End Escaper.

(** ** Objects, the heap and the interpreter state *)

(** [PyObject*]: the address of an object; [option addr] where the
    pointer can be [NULL]. *)
Definition addr := positive.

(** The address of the [None] singleton ([&_Py_NoneStruct]). *)
Definition Py_None : addr := 1%positive.

Inductive pyexc : Type :=
| PyExc_MemoryError
| PyExc_SystemError
| PyExc_AttributeError
| PyExc_Exception (name : string).

(** What an object holds.  For a text object: the code units of its
    buffer, the terminating zero left out. *)
Inductive obdata : Type :=
| DUnicode (wstr : list Py_UNICODE)
| DLong (ival : Z)
| DTuple (items : list addr)
| DOther.

Record PyObject : Type := {
  ob_refcnt : Z;
  ob_type : pytype;
  ob_data : obdata
}.

(** The interpreter: the heap, the error indicator of the thread, and
    how many code units the allocator can still hand out. *)
Record pystate : Type := {
  heap : gmap addr PyObject;
  curexc : option pyexc;
  mem_free : Z
}.

(** A run of the module's code also keeps the list of its calls of
    [escape_unicode], with their arguments, latest first.  The
    interpreter cannot touch that list. *)
Record world : Type := {
  py : pystate;
  esc_calls : list (addr * Z)
}.

Definition M (A : Type) : Type := world -> outcome (A * world).

Definition ret {A} (a : A) : M A := fun w => Ret (a, w).

Definition bind {A B} (m : M A) (k : A -> M B) : M B :=
  fun w => obind (m w) (fun aw => k (fst aw) (snd aw)).

Definition crash {A} : M A := fun _ => Crash.

(** A pure computation that may crash or time out. *)
Definition pure {A} (x : outcome A) : M A :=
  fun w => obind x (fun a => Ret (a, w)).

(** A call into the interpreter. *)
Definition ext {A} (f : pystate -> A * pystate) : M A :=
  fun w => Ret (fst (f (py w)), {| py := snd (f (py w)); esc_calls := esc_calls w |}).

Declare Scope run_scope.
Delimit Scope run_scope with run.
Notation "x <- m ;; k" := (bind m (fun x => k))
  (at level 100, m at next level, right associativity) : run_scope.
Notation "m ;; k" := (bind m (fun _ => k))
  (at level 100, right associativity) : run_scope.
Open Scope run_scope.

Definition set_heap (h : gmap addr PyObject) (s : pystate) : pystate :=
  {| heap := h; curexc := curexc s; mem_free := mem_free s |}.

Definition set_curexc (e : option pyexc) (s : pystate) : pystate :=
  {| heap := heap s; curexc := e; mem_free := mem_free s |}.

Definition set_refcnt (n : Z) (o : PyObject) : PyObject :=
  {| ob_refcnt := n; ob_type := ob_type o; ob_data := ob_data o |}.

Definition set_data (d : obdata) (o : PyObject) : PyObject :=
  {| ob_refcnt := ob_refcnt o; ob_type := ob_type o; ob_data := d |}.

Definition on_py (f : pystate -> pystate) (w : world) : world :=
  {| py := f (py w); esc_calls := esc_calls w |}.

(** [*op]: the object at an address; a dangling pointer crashes. *)
Definition deref (op : addr) : M PyObject :=
  fun w => obind (of_option (heap (py w) !! op)) (fun o => Ret (o, w)).

(** [*op = o] *)
Definition assign (op : addr) (o : PyObject) : M unit :=
  fun w => Ret (tt, on_py (fun s => set_heap (<[op := o]> (heap s)) s) w).

Definition Py_TYPE (op : addr) : M pytype :=
  o <- deref op ;; ret (ob_type o).

Definition Py_INCREF (op : addr) : M unit :=
  o <- deref op ;; assign op (set_refcnt (ob_refcnt o + 1) o).

Definition PyErr_Clear : M unit :=
  fun w => Ret (tt, on_py (set_curexc None) w).

(** [PyType_IsSubtype(a, b)]: [b] occurs in the method resolution order
    of [a]. *)
Definition PyType_IsSubtype (a b : pytype) : bool :=
  bool_decide (b ∈ tp_mro a).

Definition PyLong_CheckExact (t : pytype) : bool := bool_decide (t = PyLong_Type).
Definition PyFloat_CheckExact (t : pytype) : bool := bool_decide (t = PyFloat_Type).
Definition PyBool_Check (t : pytype) : bool := bool_decide (t = PyBool_Type).
Definition PyUnicode_Check (t : pytype) : bool := PyType_IsSubtype t PyUnicode_Type.

(** [PyObject_TypeCheck(ob, tp)]; against a [NULL] type nothing matches. *)
Definition PyObject_TypeCheck (ob : addr) (tp : option pytype) : M bool :=
  t <- Py_TYPE ob ;;
  ret (match tp with
       | Some tp => bool_decide (t = tp) || PyType_IsSubtype t tp
       | None => false
       end).

(** The objects of a [NULL]-terminated argument list. *)
Fixpoint va_objargs (va : list (option addr)) : list addr :=
  match va with
  | Some a :: va => a :: va_objargs va
  | _ => []
  end.

(** The part of the CPython API whose code runs arbitrary Python: each
    entry takes the interpreter state to a result and a new state, and
    [None] as result stands for [NULL] with the error indicator set by
    the callee. *)
Record cpython : Type := {
  (* the objects stored through the output pointers, or failure;
     [quotes] is stored only when the caller passed it *)
  PyArg_ParseTupleAndKeywords :
    addr -> option addr -> string -> list string ->
    pystate -> option (addr * option Z) * pystate;
  PyObject_GetAttrString : addr -> string -> pystate -> option addr * pystate;
  PyObject_CallObject : addr -> option addr -> pystate -> option addr * pystate;
  PyObject_Str : addr -> pystate -> option addr * pystate;
  (* calling a type object with positional arguments *)
  tp_call : pytype -> list addr -> pystate -> option addr * pystate;
  _Py_Dealloc : addr -> pystate -> pystate;
  (* the indeterminate content of a fresh buffer, cell by cell *)
  uninit : nat -> Py_UNICODE
}.

Section Module.

Variable api : cpython.
Variable g : globals.

(** [Py_DECREF(op)]; [op] must not be [NULL]. *)
Definition Py_DECREF (op : option addr) : M unit :=
  match op with
  | None => crash
  | Some op =>
      o <- deref op ;;
      let n := ob_refcnt o - 1 in
      assign op (set_refcnt n o) ;;
      if n =? 0 then ext (fun s => (tt, _Py_Dealloc api op s)) else ret tt
  end.

(** [PyObject_CallFunctionObjArgs(callable, ..., NULL)] with the
    variable arguments as [va]; a [NULL] callable is an error. *)
Definition PyObject_CallFunctionObjArgs (callable : option pytype)
    (va : list (option addr)) : M (option addr) :=
  match callable with
  | Some tp => ext (tp_call api tp (va_objargs va))
  | None =>
      fun w => Ret (None, on_py (fun s =>
        match curexc s with
        | None => set_curexc (Some PyExc_SystemError) s
        | Some _ => s
        end) w)
  end.

(** [PyUnicode_FromUnicode(NULL, size)]: a new text object of [size]
    code units whose content is not set yet; [NULL] with
    [MemoryError] when the allocator cannot provide it. *)
Definition PyUnicode_FromUnicode_NULL (size : Z) : M (option addr) :=
  fun w =>
    let s := py w in
    if size <? 0 then Ret (None, on_py (set_curexc (Some PyExc_SystemError)) w)
    else if mem_free s <? size then
      Ret (None, on_py (set_curexc (Some PyExc_MemoryError)) w)
    else
      let op := fresh (dom (heap s)) in
      let o := {| ob_refcnt := 1; ob_type := PyUnicode_Type;
                  ob_data := DUnicode (uninit api <$> seq 0 (Z.to_nat size)) |} in
      Ret (Some op,
           {| py := {| heap := <[op := o]> (heap s); curexc := curexc s;
                       mem_free := mem_free s - size |};
              esc_calls := esc_calls w |}).

(** [PyUnicode_AS_UNICODE(op)] together with [PyUnicode_GET_SIZE(op)]:
    the buffer of a text object. *)
Definition PyUnicode_AS_UNICODE (op : addr) : M (list Py_UNICODE) :=
  o <- deref op ;;
  match ob_data o with
  | DUnicode wstr => ret wstr
  | _ => crash
  end.

Definition record_call (in_ : addr) (quotes : Z) : M unit :=
  fun w => Ret (tt, {| py := py w; esc_calls := (in_, quotes) :: esc_calls w |}).

(** [escape_unicode(in, quotes)] *)
Definition escape_unicode (fuel : nat) (in_ : addr) (quotes : Z) : M (option addr) :=
  record_call in_ quotes ;;
  wstr <- PyUnicode_AS_UNICODE in_ ;;
  let mem := wstr ++ [0%N] in
  let inp_end := length wstr in
  (* First we need to figure out how long the escaped string will be *)
  de <- pure (measure_loop g fuel mem inp_end quotes 0 0 0) ;;
  let delta := fst de in
  let erepl := snd de in
  (* Do we need to escape anything at all? *)
  if erepl =? 0 then
    Py_INCREF in_ ;; ret (Some in_)
  else
    out <- PyUnicode_FromUnicode_NULL (Z.of_nat (length wstr) + delta) ;;
    match out with
    | None => ret None
    | Some out =>
        obuf <- PyUnicode_AS_UNICODE out ;;
        r <- pure (fill_loop g fuel fuel mem inp_end quotes obuf 0 0 erepl 0) ;;
        let obuf := fst (fst r) in
        let outp := snd (fst r) in
        let inp := snd r in
        obuf <- pure (if (inp <? inp_end)%nat
                      then Py_UNICODE_COPY obuf outp mem inp
                             (Z.of_nat (length wstr) - Z.of_nat inp)
                      else Ret obuf) ;;
        o <- deref out ;;
        assign out (set_data (DUnicode obuf) o) ;;
        ret (Some out)
    end.

(** The end of [escape]: convert the unicode string into a markup object. *)
Definition escape_mark (s : option addr) : M (option addr) :=
  rv <- PyObject_CallFunctionObjArgs (markup g) [s; None] ;;
  Py_DECREF s ;;
  ret rv.

(** The last branch of [escape]: otherwise make the object unicode if it
    isn't, then escape. *)
Definition escape_text (fuel : nat) (text : addr) (quotes : Z) : M (option addr) :=
  PyErr_Clear ;;
  t <- Py_TYPE text ;;
  if negb (PyUnicode_Check t) then
    unicode <- ext (PyObject_Str api text) ;;
    match unicode with
    | None => ret None
    | Some unicode =>
        s <- escape_unicode fuel unicode quotes ;;
        Py_DECREF (Some unicode) ;;
        escape_mark s
    end
  else
    s <- escape_unicode fuel text quotes ;;
    escape_mark s.

(** [escape(self, args, kwds)] *)
Definition escape (fuel : nat) (self : addr) (args : addr) (kwds : option addr)
    : M (option addr) :=
  let quotes := 1 in
  parsed <- ext (PyArg_ParseTupleAndKeywords api args kwds "O|i" ["text"; "quotes"]) ;;
  match parsed with
  | None => ret None
  | Some (text, given) =>
      let quotes := default quotes given in
      is_markup <- PyObject_TypeCheck text (markup g) ;;
      if is_markup then
        Py_INCREF text ;; ret (Some text)
      else
        (* we don't have to escape integers, bools or floats *)
        t <- Py_TYPE text ;;
        if PyLong_CheckExact t || PyFloat_CheckExact t || PyBool_Check t
           || bool_decide (text = Py_None)
        then PyObject_CallFunctionObjArgs (markup g) [Some text; None]
        else
          (* if the object has an __html__ method that performs the escaping *)
          html <- ext (PyObject_GetAttrString api text "__html__") ;;
          match html with
          | Some html =>
              rv <- ext (PyObject_CallObject api html None) ;;
              Py_DECREF (Some html) ;;
              ret rv
          | None => escape_text fuel text quotes
          end
  end.

End Module.

(** ** The module once loaded *)

(** The globals after [PyInit__speedups] ran [init_constants]
    on the zero-initialised statics. *)
Definition loaded (PyImport_ImportModule : string -> option pymodule) : globals :=
  snd (init_constants PyImport_ImportModule static_globals).

(** Modelled from the spec: the safe-marked wrapper type, the class
    [Markup] of [genshi.core], which is not part of this file's source.
    The spec gives it as a type of its own, constructible from a text
    sequence; which class it derives from is left open ([base]). *)
Definition Markup (base : pytype) : pytype := PyHeapType "Markup" base.

(** An import machinery that finds [genshi.core] with that class in it. *)
Definition genshi_core (base : pytype) : string -> option pymodule :=
  fun name =>
    if String.eqb name "genshi.core"
    then Some (fun attr => if String.eqb attr "Markup" then Some (Markup base) else None)
    else None.

(** ** The specification of the scalar escaper, in the spec's words *)

(** Delta length: 4 for the two quotes and the ampersand, 3 for the two
    angle brackets, 0 for every other code point. *)
Definition delta_length (c : Py_UNICODE) : Z :=
  if bool_decide (c = DQUOTE ∨ c = SQUOTE ∨ c = AMP) then 4
  else if bool_decide (c = LT ∨ c = GT) then 3
  else 0.

(** The character reference of each of the five characters. *)
Definition reference (c : Py_UNICODE) : list Py_UNICODE :=
  if bool_decide (c = DQUOTE) then units "&#34;"
  else if bool_decide (c = SQUOTE) then units "&#39;"
  else if bool_decide (c = AMP) then units "&amp;"
  else if bool_decide (c = LT) then units "&lt;"
  else if bool_decide (c = GT) then units "&gt;"
  else [c].

(** Which code points are replaced: the ampersand and the angle
    brackets always, the quotes when [quotes] is set. *)
Definition replaced (quotes : Z) (c : Py_UNICODE) : bool :=
  bool_decide (c = AMP ∨ c = LT ∨ c = GT) ||
  (negb (quotes =? 0) && bool_decide (c = DQUOTE ∨ c = SQUOTE)).

Definition subst (quotes : Z) (c : Py_UNICODE) : list Py_UNICODE :=
  if replaced quotes c then reference c else [c].

(** The escaped text: every replaced code point gives way to its
    reference, the others are copied in order. *)
Definition escaped (quotes : Z) (t : list Py_UNICODE) : list Py_UNICODE :=
  c ← t; subst quotes c.

(** The sum of the delta lengths of the replaced code points. *)
Definition extra_length (quotes : Z) (t : list Py_UNICODE) : Z :=
  foldr (fun c acc => (if replaced quotes c then delta_length c else 0) + acc) 0 t.

(** The number of substitutions. *)
Definition substitutions (quotes : Z) (t : list Py_UNICODE) : nat :=
  length (filter (fun c => replaced quotes c = true) t).

(** A text object with buffer [t] sits at [op]. *)
Definition text_at (s : pystate) (op : addr) (t : list Py_UNICODE) : Prop :=
  exists o, heap s !! op = Some o /\ ob_data o = DUnicode t.

(** The world after the call was recorded. *)
Definition called (in_ : addr) (quotes : Z) (w : world) : world :=
  {| py := py w; esc_calls := (in_, quotes) :: esc_calls w |}.

(** What [escape_unicode] is to do on a text object [o] at [in_] whose
    buffer is [t]. *)
Definition escape_unicode_result (api : cpython) (in_ : addr) (quotes : Z)
    (o : PyObject) (t : list Py_UNICODE) (w : world) : outcome (option addr * world) :=
  let w := called in_ quotes w in
  let s := py w in
  if decide (substitutions quotes t = 0%nat) then
    Ret (Some in_,
         on_py (set_heap (<[in_ := set_refcnt (ob_refcnt o + 1) o]> (heap s))) w)
  else
    let size := Z.of_nat (length t) + extra_length quotes t in
    if mem_free s <? size then
      Ret (None, on_py (set_curexc (Some PyExc_MemoryError)) w)
    else
      let out := fresh (dom (heap s)) in
      Ret (Some out,
           {| py := {| heap := <[out := {| ob_refcnt := 1; ob_type := PyUnicode_Type;
                                           ob_data := DUnicode (escaped quotes t) |}]>
                                 (heap s);
                       curexc := curexc s;
                       mem_free := mem_free s - size |};
              esc_calls := esc_calls w |}).

(** The scenario of the spec: a text with all five characters, and its
    escaped form. *)
Definition scenario_input : list Py_UNICODE :=
  units "<b>" ++ DQUOTE :: units "hi" ++ DQUOTE :: units " & 'bye'</b>".

Definition scenario_output : list Py_UNICODE :=
  units "&lt;b&gt;&#34;hi&#34; &amp; &#39;bye&#39;&lt;/b&gt;".

(** The sum of the delta lengths of all the code points of a text. *)
Definition total_delta (t : list Py_UNICODE) : Z :=
  foldr (fun c acc => delta_length c + acc) 0 t.

(** The text path of the dispatcher once the [__html__] probe is over:
    convert to text, escape, mark. *)
Definition convert_and_escape (api : cpython) (g : globals) (fuel : nat)
    (text : addr) (quotes : Z) : M (option addr) :=
  unicode <- ext (PyObject_Str api text) ;;
  match unicode with
  | None => ret None
  | Some unicode =>
      s <- escape_unicode api g fuel unicode quotes ;;
      Py_DECREF api (Some unicode) ;;
      escape_mark api g s
  end.

(** ** A small interpreter

    One instance of the interpreter interface, used to run the module on
    concrete objects. *)

Module Interp.

(** A new object at a fresh address. *)
Definition new (o : PyObject) (s : pystate) : option addr * pystate :=
  let op := fresh (dom (heap s)) in
  (Some op, set_heap (<[op := o]> (heap s)) s).

Definition raise (e : pyexc) (s : pystate) : option addr * pystate :=
  (None, set_curexc (Some e) s).

(** A new reference to an existing object. *)
Definition incref (op : addr) (s : pystate) : option addr * pystate :=
  match heap s !! op with
  | Some o => (Some op, set_heap (<[op := set_refcnt (ob_refcnt o + 1) o]> (heap s)) s)
  | None => raise PyExc_SystemError s
  end.

(** The default textual form of an object. *)
Definition str_of (o : PyObject) : list Py_UNICODE :=
  match ob_data o with
  | DUnicode t => t
  | DLong v =>
      if bool_decide (ob_type o = PyBool_Type)
      then units (if v =? 0 then "False" else "True")
      else units (pretty v)
  | _ =>
      if bool_decide (ob_type o = PyNone_Type) then units "None" else units "<object>"
  end.

(** Instances keep their [__html__] method as first item, a method keeps
    the object it returns; a class named [Broken] fails every lookup. *)
Definition getattr (op : addr) (name : string) (s : pystate) : option addr * pystate :=
  match heap s !! op with
  | Some o =>
      match ob_type o, ob_data o with
      | PyHeapType "Broken" _, _ => raise (PyExc_Exception "RuntimeError") s
      | PyHeapType _ _, DTuple (m :: _) =>
          if String.eqb name "__html__" then incref m s else raise PyExc_AttributeError s
      | _, _ => raise PyExc_AttributeError s
      end
  | None => raise PyExc_SystemError s
  end.

Definition call (op : addr) (args : option addr) (s : pystate) : option addr * pystate :=
  match heap s !! op with
  | Some o =>
      match ob_data o with
      | DTuple [r] => incref r s
      | _ => raise (PyExc_Exception "TypeError") s
      end
  | None => raise PyExc_SystemError s
  end.

Definition str (op : addr) (s : pystate) : option addr * pystate :=
  match heap s !! op with
  | Some o =>
      match ob_type o, ob_data o with
      | PyHeapType "Unprintable" _, _ => raise (PyExc_Exception "ValueError") s
      | _, _ => new {| ob_refcnt := 1; ob_type := PyUnicode_Type;
                       ob_data := DUnicode (str_of o) |} s
      end
  | None => raise PyExc_SystemError s
  end.

(** Calling a type makes a text object of that type out of the argument. *)
Definition construct (tp : pytype) (args : list addr) (s : pystate)
    : option addr * pystate :=
  match args with
  | [] => new {| ob_refcnt := 1; ob_type := tp; ob_data := DUnicode [] |} s
  | a :: _ =>
      match heap s !! a with
      | Some o => new {| ob_refcnt := 1; ob_type := tp; ob_data := DUnicode (str_of o) |} s
      | None => raise PyExc_SystemError s
      end
  end.

(** [args] is a tuple of one or two objects, the second an integer. *)
Definition parse (args : addr) (kwds : option addr) (format : string)
    (kwlist : list string) (s : pystate) : option (addr * option Z) * pystate :=
  match heap s !! args with
  | Some o =>
      match ob_data o with
      | DTuple [text] => (Some (text, None), s)
      | DTuple [text; q] =>
          match heap s !! q with
          | Some {| ob_data := DLong v |} => (Some (text, Some v), s)
          | _ => (None, set_curexc (Some (PyExc_Exception "TypeError")) s)
          end
      | _ => (None, set_curexc (Some (PyExc_Exception "TypeError")) s)
      end
  | None => (None, set_curexc (Some PyExc_SystemError) s)
  end.

Definition api : cpython := {|
  PyArg_ParseTupleAndKeywords := parse;
  PyObject_GetAttrString := getattr;
  PyObject_CallObject := call;
  PyObject_Str := str;
  tp_call := construct;
  _Py_Dealloc := fun op s => set_heap (delete op (heap s)) s;
  uninit := fun i => (65533 + N.of_nat i)%N
|}.

(** The module loaded next to a [genshi.core] whose [Markup] derives
    from the text type. *)
Definition g : globals := loaded (genshi_core PyUnicode_Type).

Definition object (t : pytype) (d : obdata) : PyObject :=
  {| ob_refcnt := 1; ob_type := t; ob_data := d |}.

(** A heap with one object of each kind the dispatcher tells apart, and
    the argument tuples to pass them. *)
Definition objects : list (addr * PyObject) := [
  (1, object PyNone_Type DOther);
  (2, object PyBool_Type (DLong 1));
  (3, object PyLong_Type (DLong 42));
  (4, object PyFloat_Type DOther);
  (5, object (Markup PyUnicode_Type) (DUnicode (units "<em>safe</em>")));
  (6, object PyUnicode_Type (DUnicode (units "<b>" ++ DQUOTE :: units "hi" ++ DQUOTE :: units " & 'bye'</b>")));
  (7, object PyUnicode_Type (DUnicode (units "plain text")));
  (8, object (PyHeapType "Count" PyLong_Type) (DLong 7));
  (9, object (PyHeapType "Broken" PyBaseObject_Type) DOther);
  (10, object (PyHeapType "Unprintable" PyBaseObject_Type) DOther);
  (11, object PyUnicode_Type (DUnicode (units "<i>trusted</i>")));
  (12, object (PyHeapType "method" PyBaseObject_Type) (DTuple [11]));
  (13, object (PyHeapType "Trusted" PyLong_Type) (DTuple [12]));
  (14, object PyUnicode_Type (DUnicode (units "<")));
  (20, object PyBaseObject_Type DOther);
  (21, object PyBaseObject_Type (DTuple [1]));
  (22, object PyBaseObject_Type (DTuple [2]));
  (23, object PyBaseObject_Type (DTuple [3]));
  (24, object PyBaseObject_Type (DTuple [4]));
  (25, object PyBaseObject_Type (DTuple [5]));
  (26, object PyBaseObject_Type (DTuple [6]));
  (27, object PyBaseObject_Type (DTuple [7]));
  (28, object PyBaseObject_Type (DTuple [8]));
  (29, object PyBaseObject_Type (DTuple [9]));
  (30, object PyBaseObject_Type (DTuple [10]));
  (33, object PyBaseObject_Type (DTuple [13]));
  (34, object PyBaseObject_Type (DTuple [14]))
]%positive.

Definition world_with (free : Z) : world :=
  {| py := {| heap := list_to_map objects; curexc := None; mem_free := free |};
     esc_calls := [] |}.

End Interp.

(** ** Worlds for the further properties *)

(** Three texts, the third the concatenation of the first two. *)
Definition concat_world : world :=
  {| py := {| heap := list_to_map [
                (1, Interp.object PyNone_Type DOther);
                (2, Interp.object PyUnicode_Type (DUnicode (units "a<")));
                (3, Interp.object PyUnicode_Type (DUnicode (units "&b")));
                (4, Interp.object PyUnicode_Type (DUnicode (units "a<&b")))]%positive;
              curexc := None; mem_free := 1000 |};
     esc_calls := [] |}.

(** The world a run leaves, for running again in it. *)
Definition world_after (r : outcome (option addr * world)) (w : world) : world :=
  match r with
  | Ret (_, w') => w'
  | _ => w
  end.

(** The object a run returns. *)
Definition returned (r : outcome (option addr * world)) : option addr :=
  match r with
  | Ret (x, _) => x
  | _ => None
  end.

(** ** The tables after initialisation *)

Section Tables.

Variable imp : string -> option pymodule.
Local Abbreviation g := (loaded imp).

Lemma delta_len_table :
  escaped_chars_delta_len g =
  store (store (store (store (store (replicate 63 0) AMP 4) SQUOTE 4) DQUOTE 4) GT 3) LT 3.
Proof. unfold loaded, init_constants. destruct (imp _); reflexivity. Qed.

Lemma repl_table :
  escaped_chars_repl g =
  store (store (store (store (store (replicate 63 None)
    DQUOTE (Some (UNICHR "&#34;"))) SQUOTE (Some (UNICHR "&#39;")))
    AMP (Some (UNICHR "&amp;"))) LT (Some (UNICHR "&lt;"))) GT (Some (UNICHR "&gt;")).
Proof. unfold loaded, init_constants. destruct (imp _); reflexivity. Qed.

Lemma delta_len_lookup (n : nat) :
  (n < 63)%nat ->
  escaped_chars_delta_len g !! n = Some (delta_length (N.of_nat n)).
Proof.
  rewrite delta_len_table. intros Hn.
  do 63 (destruct n as [|n]; [reflexivity|]). lia.
Qed.

Lemma delta_len_at_below (c : Py_UNICODE) :
  (c < ESCAPED_CHARS_TABLE_SIZE)%N -> delta_len_at g c = Ret (delta_length c).
Proof.
  intros Hc. unfold delta_len_at, ESCAPED_CHARS_TABLE_SIZE in *.
  rewrite delta_len_lookup by lia. by rewrite N2Nat.id.
Qed.

Lemma delta_length_cases (c : Py_UNICODE) :
  delta_length c <> 0 ->
  c = DQUOTE ∨ c = SQUOTE ∨ c = AMP ∨ c = LT ∨ c = GT.
Proof.
  unfold delta_length. repeat case_bool_decide; naive_solver.
Qed.

Lemma repl_at_special (c : Py_UNICODE) :
  delta_length c <> 0 ->
  repl_at g c = Ret (Some (reference c ++ [0%N])) /\
  Z.of_nat (length (reference c)) = delta_length c + 1.
Proof.
  intros Hc. unfold repl_at. rewrite repl_table.
  destruct (delta_length_cases c Hc) as [->|[->|[->|[->| ->]]]]; by vm_compute.
Qed.

(** The code's test for a substitution is the spec's. *)
Lemma candidate_replaced (quotes : Z) (c : Py_UNICODE) :
  candidate quotes c && negb (delta_length c =? 0) = replaced quotes c.
Proof.
  unfold replaced.
  destruct (decide (delta_length c = 0)) as [E|E].
  - rewrite E. simpl. rewrite andb_false_r.
    unfold delta_length in E. repeat case_bool_decide; try done; try lia.
    all: simpl; rewrite ?andb_false_r; try done; naive_solver.
  - destruct (Z.eqb_spec (delta_length c) 0) as [|_]; [done|]. rewrite andb_true_r.
    unfold candidate.
    destruct (delta_length_cases c E) as [->|[->|[->|[->| ->]]]];
      vm_compute (_ <? _)%N; simpl; vm_compute (bool_decide _); simpl;
      by destruct (quotes =? 0).
Qed.

Lemma candidate_below (quotes : Z) (c : Py_UNICODE) :
  candidate quotes c = true -> (c < ESCAPED_CHARS_TABLE_SIZE)%N.
Proof. unfold candidate. intros [H _]%andb_true_iff. by apply N.ltb_lt. Qed.

Lemma replaced_delta (quotes : Z) (c : Py_UNICODE) :
  replaced quotes c = true -> delta_length c <> 0 /\ candidate quotes c = true.
Proof.
  rewrite <- candidate_replaced. intros [H1 H2]%andb_true_iff. split; [|done].
  by destruct (Z.eqb_spec (delta_length c) 0).
Qed.

End Tables.

(** ** The loops compute the specification *)

Section Loops.

Variable imp : string -> option pymodule.
Local Abbreviation g := (loaded imp).
Variable quotes : Z.

Lemma extra_length_cons c l :
  extra_length quotes (c :: l) =
  (if replaced quotes c then delta_length c else 0) + extra_length quotes l.
Proof. reflexivity. Qed.

Lemma substitutions_nil : substitutions quotes [] = 0%nat.
Proof. reflexivity. Qed.

Lemma substitutions_cons c l :
  substitutions quotes (c :: l) =
  ((if replaced quotes c then 1 else 0) + substitutions quotes l)%nat.
Proof.
  unfold substitutions. rewrite filter_cons.
  destruct (replaced quotes c); by case_decide.
Qed.

Lemma escaped_cons c l :
  escaped quotes (c :: l) = subst quotes c ++ escaped quotes l.
Proof. reflexivity. Qed.

Lemma escaped_app l1 l2 :
  escaped quotes (l1 ++ l2) = escaped quotes l1 ++ escaped quotes l2.
Proof. unfold escaped. apply bind_app. Qed.

(** A text without substitutions is its own escaped form. *)
Lemma escaped_none l :
  substitutions quotes l = 0%nat ->
  escaped quotes l = l /\ extra_length quotes l = 0.
Proof.
  induction l as [|c l IH]; [done|].
  rewrite substitutions_cons, escaped_cons, extra_length_cons. unfold subst.
  destruct (replaced quotes c); [lia|]. intros H.
  destruct (IH H) as [-> ->]. done.
Qed.

(** The first substitution splits a text that has one. *)
Lemma first_substitution l k :
  substitutions quotes l = S k ->
  exists a c rest,
    l = a ++ c :: rest /\ substitutions quotes a = 0%nat /\
    replaced quotes c = true /\ substitutions quotes rest = k.
Proof.
  induction l as [|x l IH]; [done|].
  rewrite substitutions_cons. destruct (replaced quotes x) eqn:Ex.
  - intros H. exists [], x, l. repeat split; [done|lia].
  - intros H. destruct (IH H) as (a & c & rest & -> & Ha & Hc & Hr).
    exists (x :: a), c, rest. repeat split; try done.
    rewrite substitutions_cons, Ex. lia.
Qed.

Ltac nat_ltb :=
  match goal with
  | |- context [(?a <? ?b)%nat] => destruct (Nat.ltb_spec a b); try lia
  | |- context [(?a <=? ?b)%nat] => destruct (Nat.leb_spec a b); try lia
  end.

Lemma middle_shift (pre l : list Py_UNICODE) (c : Py_UNICODE) :
  pre ++ c :: l = (pre ++ [c]) ++ l /\ S (length pre) = length (pre ++ [c]).
Proof. rewrite <- app_assoc, length_app. simpl. split; [done|lia]. Qed.

Lemma measure_loop_spec l : forall pre fuel delta erepl,
  (length l < fuel)%nat ->
  measure_loop g fuel (pre ++ l ++ [0%N]) (length pre + length l) quotes
    (length pre) delta erepl =
  Ret (delta + extra_length quotes l, erepl + Z.of_nat (substitutions quotes l)).
Proof.
  induction l as [|c l IH]; intros pre fuel delta erepl Hf;
    (destruct fuel as [|fuel]; [simpl in Hf; lia|]); simpl in Hf;
    cbn [measure_loop app]; rewrite list_lookup_middle by done; cbn [of_option obind].
  - simpl. nat_ltb. f_equal. f_equal; [lia|]. unfold substitutions. simpl. lia.
  - nat_ltb; [|simpl in *; lia]. rewrite orb_true_r.
    destruct (middle_shift pre (l ++ [0%N]) c) as [Hmem Hinp].
    assert (Hend : (length pre + length (c :: l) = length (pre ++ [c]) + length l)%nat)
      by (rewrite length_app; simpl; lia).
    rewrite extra_length_cons, substitutions_cons, <- (candidate_replaced quotes c).
    rewrite Hmem, Hend, Hinp.
    destruct (candidate quotes c) eqn:Ec; simpl andb.
    + rewrite (delta_len_at_below imp) by (by eapply candidate_below). cbn [obind].
      rewrite IH by lia.
      f_equal. destruct (Z.eqb_spec (delta_length c) 0) as [->|]; simpl; f_equal; lia.
    + rewrite IH by lia; simpl; do 2 f_equal; lia.
Qed.

Lemma find_next_spec a : forall pre c rest fuel delta_len,
  substitutions quotes a = 0%nat ->
  replaced quotes c = true ->
  (length a < fuel)%nat ->
  find_next g fuel (pre ++ (a ++ c :: rest) ++ [0%N])
    (length pre + length (a ++ c :: rest)) quotes (length pre) delta_len =
  Ret ((length pre + length a)%nat, delta_length c + 1).
Proof.
  induction a as [|x a IH]; intros pre c rest fuel delta_len Ha Hc Hf;
    (destruct fuel as [|fuel]; [simpl in Hf; lia|]); simpl in Hf;
    cbn [find_next]; (nat_ltb; [|simpl in *; lia]);
    rewrite <- ?app_comm_cons; cbn [app];
    rewrite list_lookup_middle by done; cbn [of_option obind].
  - destruct (replaced_delta quotes c Hc) as [Hd ->].
    rewrite (delta_len_at_below imp)
      by (eapply candidate_below; apply (replaced_delta quotes c Hc)).
    cbn [obind]. destruct (Z.eqb_spec (delta_length c) 0); [done|].
    simpl. do 2 f_equal. lia.
  - rewrite substitutions_cons in Ha.
    destruct (replaced quotes x) eqn:Ex; [lia|].
    destruct (middle_shift pre ((a ++ c :: rest) ++ [0%N]) x) as [Hmem Hinp].
    assert (Hend : (length pre + length (x :: a ++ c :: rest)
                    = length (pre ++ [x]) + length (a ++ c :: rest))%nat)
      by (rewrite length_app; simpl; lia).
    rewrite Hmem, Hend, Hinp.
    rewrite <- candidate_replaced in Ex.
    destruct (candidate quotes x) eqn:Ecx.
    + rewrite (delta_len_at_below imp) by (by eapply candidate_below). cbn [obind].
      simpl in Ex. destruct (Z.eqb_spec (delta_length x) 0); [|done]. cbn [negb].
      rewrite IH by (done || lia).
      do 2 f_equal. rewrite length_app. simpl. lia.
    + rewrite IH by (done || lia).
      do 2 f_equal. rewrite length_app. simpl. lia.
Qed.

(** A copy into the free part of a buffer that is filled up to [done]. *)
Lemma Py_UNICODE_COPY_spec (done free src chunk : list Py_UNICODE) (inp : nat) :
  take (length chunk) (drop inp src) = chunk ->
  (inp + length chunk <= length src)%nat ->
  (length chunk <= length free)%nat ->
  Py_UNICODE_COPY (done ++ free) (length done) src inp (Z.of_nat (length chunk)) =
  Ret ((done ++ chunk) ++ drop (length chunk) free).
Proof.
  intros Hc Hs Hf. unfold Py_UNICODE_COPY.
  destruct (Z.ltb_spec (Z.of_nat (length chunk)) 0); [lia|].
  rewrite Nat2Z.id, Hc.
  replace (inp + length chunk <=? length src)%nat with true
    by (symmetry; apply Nat.leb_le; lia).
  replace (length done + length chunk <=? length (done ++ free))%nat with true
    by (symmetry; apply Nat.leb_le; rewrite length_app; lia).
  simpl. f_equal.
  rewrite take_app_length, drop_app_add', <- app_assoc; done.
Qed.

Lemma extra_length_app l1 l2 :
  extra_length quotes (l1 ++ l2) = extra_length quotes l1 + extra_length quotes l2.
Proof.
  induction l1 as [|c l1 IH]; [done|].
  rewrite <- app_comm_cons, !extra_length_cons, IH. lia.
Qed.

Lemma extra_length_nonneg l : 0 <= extra_length quotes l.
Proof.
  induction l as [|c l IH]; [done|]. rewrite extra_length_cons.
  destruct (replaced quotes c); [|lia].
  unfold delta_length. repeat case_bool_decide; lia.
Qed.

(** The second pass: all counted substitutions are placed, what is left
    of the input has none, and the output holds the escaped text so far. *)
Lemma fill_loop_spec k : forall l pre done free fuel ifuel delta_len,
  substitutions quotes l = k ->
  (k < fuel)%nat -> (length l < ifuel)%nat ->
  Z.of_nat (length free) = Z.of_nat (length l) + extra_length quotes l ->
  exists l1 l2 free',
    l = l1 ++ l2 /\ substitutions quotes l2 = 0%nat /\ length free' = length l2 /\
    fill_loop g fuel ifuel (pre ++ l ++ [0%N]) (length pre + length l) quotes
      (done ++ free) (length done) (length pre) (Z.of_nat k) delta_len =
    Ret ((done ++ escaped quotes l1) ++ free',
         length (done ++ escaped quotes l1), length (pre ++ l1)).
Proof.
  induction k as [|k IH]; intros l pre done free fuel ifuel delta_len Hk Hf Hi Hfree;
    (destruct fuel as [|fuel]; [lia|]); cbn [fill_loop].
  - exists [], l, free. change (0 <? Z.of_nat 0) with false. cbn iota.
    change (escaped quotes []) with (@nil Py_UNICODE). rewrite !app_nil_r.
    destruct (escaped_none l Hk) as [_ Hx]. repeat split; [done|lia].
  - destruct (first_substitution l k Hk) as (a & c & rest & -> & Ha & Hc & Hr).
    replace (0 <? Z.of_nat (S k)) with true by (symmetry; apply Z.ltb_lt; lia).
    destruct (escaped_none a Ha) as [Hea Hxa].
    destruct (replaced_delta quotes c Hc) as [Hd Hcand].
    destruct (repl_at_special imp c Hd) as [Hrepl Hlen].
    rewrite length_app in Hi, Hfree. simpl in Hi, Hfree.
    rewrite extra_length_app, extra_length_cons, Hc, Hxa in Hfree.
    pose proof (extra_length_nonneg rest) as Hnn.
    rewrite find_next_spec by (done || lia). cbn [obind].
    (* the run of unescaped code units *)
    assert (Hcopy1 :
      (if (length pre <? length pre + length a)%nat
       then obind (Py_UNICODE_COPY (done ++ free) (length done)
                     (pre ++ (a ++ c :: rest) ++ [0%N]) (length pre)
                     (Z.of_nat (length pre + length a) - Z.of_nat (length pre)))
              (fun out => Ret (out, (length done + (length pre + length a - length pre))%nat))
       else Ret (done ++ free, length done)) =
      Ret ((done ++ a) ++ drop (length a) free, length (done ++ a))).
    { nat_ltb.
      - replace (Z.of_nat (length pre + length a) - Z.of_nat (length pre))
          with (Z.of_nat (length a)) by lia.
        rewrite Py_UNICODE_COPY_spec; cbn [obind].
        + do 2 f_equal. rewrite length_app. lia.
        + rewrite drop_app_length, <- app_assoc, take_app_length. done.
        + rewrite !length_app. simpl. lia.
        + lia.
      - assert (a = []) as -> by (destruct a; [done|simpl in *; lia]).
        by rewrite app_nil_r. }
    rewrite Hcopy1. cbn [obind].
    (* the reference *)
    replace (pre ++ (a ++ c :: rest) ++ [0%N]) with ((pre ++ a) ++ c :: rest ++ [0%N])
      by (by rewrite <- !app_assoc).
    replace (length pre + length a)%nat with (length (pre ++ a))
      by (by rewrite length_app).
    rewrite list_lookup_middle by done. cbn [of_option obind].
    rewrite Hrepl. cbn [of_option obind].
    rewrite <- Hlen.
    rewrite (Py_UNICODE_COPY_spec (done ++ a) (drop (length a) free)
               (reference c ++ [0%N]) (reference c) 0);
      [cbn [obind]
      | by rewrite drop_0, take_app_length
      | rewrite length_app; simpl; lia
      | rewrite length_drop; lia].
    (* the rest of the text *)
    destruct (middle_shift (pre ++ a) (rest ++ [0%N]) c) as [-> ->].
    replace (length pre + length (a ++ c :: rest))%nat
      with (length ((pre ++ a) ++ [c]) + length rest)%nat
      by (rewrite !length_app; simpl; lia).
    replace (length (done ++ a) + Z.to_nat (Z.of_nat (length (reference c))))%nat
      with (length ((done ++ a) ++ reference c))
      by (rewrite (length_app (done ++ a)); lia).
    replace (Z.of_nat (S k) - 1) with (Z.of_nat k) by lia.
    destruct (IH rest ((pre ++ a) ++ [c]) ((done ++ a) ++ reference c)
                (drop (length (reference c)) (drop (length a) free))
                fuel ifuel (Z.of_nat (length (reference c))))
      as (l1 & l2 & free' & -> & Hl2 & Hfl & ->);
      [done | lia | lia | rewrite !length_drop; lia |].
    exists (a ++ c :: l1), l2, free'.
    rewrite escaped_app, escaped_cons, Hea. unfold subst. rewrite Hc.
    repeat split; try done.
    + by rewrite <- !app_assoc.
    + by rewrite <- !app_assoc.
Qed.

(** The copy of the trailing run after the second pass. *)
Lemma trailing_copy_spec (pre l1 l2 done free' : list Py_UNICODE) :
  substitutions quotes l2 = 0%nat -> length free' = length l2 ->
  (if (length (pre ++ l1) <? length pre + length (l1 ++ l2))%nat
   then Py_UNICODE_COPY ((done ++ escaped quotes l1) ++ free')
          (length (done ++ escaped quotes l1)) (pre ++ (l1 ++ l2) ++ [0%N])
          (length (pre ++ l1))
          (Z.of_nat (length pre + length (l1 ++ l2)) - Z.of_nat (length (pre ++ l1)))
   else Ret ((done ++ escaped quotes l1) ++ free')) =
  Ret (done ++ escaped quotes (l1 ++ l2)).
Proof.
  intros Hl2 Hfree. destruct (escaped_none l2 Hl2) as [He _].
  rewrite escaped_app, He. nat_ltb.
  - replace (Z.of_nat (length pre + length (l1 ++ l2)) - Z.of_nat (length (pre ++ l1)))
      with (Z.of_nat (length l2)) by (rewrite !length_app; lia).
    rewrite Py_UNICODE_COPY_spec.
    + by rewrite <- Hfree, drop_all, app_nil_r, <- !app_assoc.
    + replace (pre ++ (l1 ++ l2) ++ [0%N]) with ((pre ++ l1) ++ l2 ++ [0%N])
        by (by rewrite <- !app_assoc).
      by rewrite drop_app_length, take_app_length.
    + rewrite !length_app. simpl. lia.
    + lia.
  - assert (l2 = []) as -> by (destruct l2; [done|rewrite !length_app in *; simpl in *; lia]).
    destruct free'; [|done]. by rewrite !app_nil_r.
Qed.

End Loops.

(** ** The scalar escaper as a whole *)

Section Scalar.

Variable api : cpython.
Variable imp : string -> option pymodule.
Local Abbreviation g := (loaded imp).

Lemma measure_whole quotes t fuel :
  (length t < fuel)%nat ->
  measure_loop g fuel (t ++ [0%N]) (length t) quotes 0 0 0 =
  Ret (extra_length quotes t, Z.of_nat (substitutions quotes t)).
Proof.
  intros Hf. exact (measure_loop_spec imp quotes t [] fuel 0 0 Hf).
Qed.

Lemma second_pass_whole quotes t free fuel :
  (length t < fuel)%nat ->
  Z.of_nat (length free) = Z.of_nat (length t) + extra_length quotes t ->
  obind (fill_loop g fuel fuel (t ++ [0%N]) (length t) quotes free 0 0
           (Z.of_nat (substitutions quotes t)) 0)
    (fun r =>
       if (snd r <? length t)%nat
       then Py_UNICODE_COPY (fst (fst r)) (snd (fst r)) (t ++ [0%N]) (snd r)
              (Z.of_nat (length t) - Z.of_nat (snd r))
       else Ret (fst (fst r))) =
  Ret (escaped quotes t).
Proof.
  intros Hf Hfree.
  assert (Hk : (substitutions quotes t <= length t)%nat).
  { unfold substitutions. apply length_filter. }
  destruct (fill_loop_spec imp quotes (substitutions quotes t) t [] [] free fuel fuel 0)
    as (l1 & l2 & free' & E & Hl2 & Hfl & Hrun); [done|lia|lia|done|].
  simpl in Hrun. rewrite Hrun. cbn [obind fst snd].
  pose proof (trailing_copy_spec quotes [] l1 l2 [] free' Hl2 Hfl) as Hc.
  simpl in Hc. rewrite <- E in Hc. exact Hc.
Qed.

(** Running a step whose result is known. *)
Lemma bind_run {A B} (m : M A) (k : A -> M B) (w w' : world) (a : A) :
  m w = Ret (a, w') -> bind m k w = k a w'.
Proof. unfold bind. by intros ->. Qed.

Lemma deref_run op o w :
  heap (py w) !! op = Some o -> deref op w = Ret (o, w).
Proof. unfold deref. by intros ->. Qed.

Lemma Py_TYPE_run op o w :
  heap (py w) !! op = Some o -> Py_TYPE op w = Ret (ob_type o, w).
Proof. intros H. unfold Py_TYPE. by rewrite (bind_run _ _ _ _ _ (deref_run _ _ _ H)). Qed.

Lemma Py_INCREF_run op o w :
  heap (py w) !! op = Some o ->
  Py_INCREF op w =
  Ret (tt, on_py (set_heap (<[op := set_refcnt (ob_refcnt o + 1) o]> (heap (py w)))) w).
Proof. intros H. unfold Py_INCREF. by rewrite (bind_run _ _ _ _ _ (deref_run _ _ _ H)). Qed.

Lemma PyUnicode_AS_UNICODE_run op o t w :
  heap (py w) !! op = Some o -> ob_data o = DUnicode t ->
  PyUnicode_AS_UNICODE op w = Ret (t, w).
Proof.
  intros H Ht. unfold PyUnicode_AS_UNICODE.
  rewrite (bind_run _ _ _ _ _ (deref_run _ _ _ H)). by rewrite Ht.
Qed.

(** The scalar escaper returns, and returns this: the input itself when
    nothing is to be replaced, [NULL] when the buffer cannot be
    allocated, otherwise a new text object holding the escaped text. *)
Lemma escape_unicode_spec fuel in_ quotes o t w :
  heap (py w) !! in_ = Some o -> ob_data o = DUnicode t ->
  (length t < fuel)%nat ->
  escape_unicode api g fuel in_ quotes w = escape_unicode_result api in_ quotes o t w.
Proof.
  intros Hin Ht Hf.
  unfold escape_unicode, escape_unicode_result.
  erewrite bind_run by (unfold record_call; reflexivity).
  fold (called in_ quotes w).
  assert (Hin' : heap (py (called in_ quotes w)) !! in_ = Some o) by done.
  clear Hin. generalize dependent (called in_ quotes w). clear w. intros w Hin.
  erewrite bind_run by (by eapply PyUnicode_AS_UNICODE_run).
  erewrite bind_run by (unfold pure; rewrite measure_whole by done; reflexivity).
  cbn [fst snd].
  destruct (decide (substitutions quotes t = 0%nat)) as [E|E].
  - rewrite E. change (Z.of_nat 0 =? 0) with true. cbn iota.
    erewrite bind_run by (by eapply Py_INCREF_run). done.
  - destruct (Z.eqb_spec (Z.of_nat (substitutions quotes t)) 0) as [|_]; [lia|].
    pose proof (extra_length_nonneg quotes t) as Hnn.
    set (size := Z.of_nat (length t) + extra_length quotes t).
    unfold bind at 1. unfold PyUnicode_FromUnicode_NULL.
    destruct (Z.ltb_spec size 0); [lia|].
    destruct (Z.ltb_spec (mem_free (py w)) size); cbn [obind fst snd]; [done|].
    set (out := fresh (dom (heap (py w)))).
    set (o1 := {| ob_refcnt := 1; ob_type := PyUnicode_Type;
                  ob_data := DUnicode (uninit api <$> seq 0 (Z.to_nat size)) |}).
    erewrite bind_run
      by (eapply (PyUnicode_AS_UNICODE_run out o1); [apply lookup_insert_eq|done]).
    assert (Hfree : Z.of_nat (length (uninit api <$> seq 0 (Z.to_nat size)))
                    = Z.of_nat (length t) + extra_length quotes t)
      by (rewrite length_fmap, length_seq; lia).
    pose proof (second_pass_whole quotes t _ fuel Hf Hfree) as Hp.
    destruct (fill_loop _ _ _ _ _ _ _ _ _ _ _) as [[[obuf outp] inp]| |] eqn:Efill;
      cbn [obind fst snd] in Hp; [|discriminate Hp|discriminate Hp].
    erewrite bind_run by (unfold pure; reflexivity).
    cbn [fst snd].
    erewrite bind_run by (unfold pure; rewrite Hp; reflexivity).
    erewrite bind_run by (eapply (deref_run out o1); apply lookup_insert_eq).
    unfold bind, assign, ret, on_py, set_heap, set_data.
    cbn [obind fst snd py heap curexc mem_free esc_calls ob_refcnt ob_type o1].
    by rewrite insert_insert_eq.
Qed.

End Scalar.

(** ** Properties of the scalar escaper *)

Section ScalarProperties.

Variable api : cpython.
Variable imp : string -> option pymodule.
Local Abbreviation g := (loaded imp).

Lemma length_reference (quotes : Z) (c : Py_UNICODE) :
  replaced quotes c = true ->
  Z.of_nat (length (reference c)) = delta_length c + 1.
Proof.
  intros Hc. apply (repl_at_special imp). by apply (replaced_delta quotes).
Qed.

Lemma length_escaped (quotes : Z) (t : list Py_UNICODE) :
  Z.of_nat (length (escaped quotes t)) = Z.of_nat (length t) + extra_length quotes t.
Proof.
  induction t as [|c t IH]; [done|].
  rewrite escaped_cons, extra_length_cons, length_app. unfold subst.
  destruct (replaced quotes c) eqn:Ec.
  - pose proof (length_reference quotes c Ec). simpl length. lia.
  - simpl length. lia.
Qed.

(** With the quotes escaped, every code point that has a delta length is
    replaced. *)
Lemma extra_length_total (quotes : Z) (t : list Py_UNICODE) :
  quotes <> 0 -> extra_length quotes t = total_delta t.
Proof.
  intros Hq. induction t as [|c t IH]; [done|].
  rewrite extra_length_cons, IH. simpl. f_equal.
  destruct (replaced quotes c) eqn:Ec; [done|].
  destruct (decide (delta_length c = 0)) as [->|Hd]; [done|].
  rewrite <- candidate_replaced in Ec. unfold candidate in Ec.
  destruct (Z.eqb_spec quotes 0); [done|]. simpl in Ec.
  destruct (Z.eqb_spec (delta_length c) 0); [done|].
  destruct (delta_length_cases c Hd) as [->|[->|[->|[->| ->]]]]; by vm_compute in Ec.
Qed.

(** What the spec calls the special characters, and the code's test. *)
Lemma replaced_false_iff (quotes : Z) (c : Py_UNICODE) :
  replaced quotes c = false <->
  c <> AMP /\ c <> LT /\ c <> GT /\ (quotes <> 0 -> c <> DQUOTE /\ c <> SQUOTE).
Proof.
  unfold replaced. rewrite orb_false_iff, andb_false_iff, negb_false_iff.
  rewrite !bool_decide_eq_false, Z.eqb_eq. split.
  - intros [H1 H2]. repeat split; try naive_solver.
  - intros (H1 & H2 & H3 & H4). split; [naive_solver|].
    destruct (decide (quotes = 0)); [by left|right]. naive_solver.
Qed.

Lemma substitutions_none (quotes : Z) (t : list Py_UNICODE) :
  (forall c, c ∈ t -> replaced quotes c = false) -> substitutions quotes t = 0%nat.
Proof.
  induction t as [|c t IH]; [done|]. intros H.
  rewrite substitutions_cons, (H c), IH; [done| |]; set_solver.
Qed.

(** The scalar escaper always returns: a text object holding the escaped
    text, or [NULL] when there was something to replace and the
    allocator could not provide the buffer. *)
Lemma escape_unicode_returns fuel in_ quotes o t w :
  heap (py w) !! in_ = Some o -> ob_data o = DUnicode t ->
  (length t < fuel)%nat ->
  exists x w',
    escape_unicode api g fuel in_ quotes w = Ret (x, w') /\
    match x with
    | Some r => text_at (py w') r (escaped quotes t)
    | None => mem_free (py w) < Z.of_nat (length t) + extra_length quotes t
    end.
Proof.
  intros Hin Ht Hf. rewrite (escape_unicode_spec api imp fuel in_ quotes o t w) by done.
  unfold escape_unicode_result.
  destruct (decide (substitutions quotes t = 0%nat)) as [E|E].
  - eexists _, _. split; [reflexivity|].
    destruct (escaped_none quotes t E) as [-> _].
    eexists. split; [apply lookup_insert_eq|done].
  - cbn [py called]. case_match eqn:Em.
    + eexists _, _. split; [reflexivity|]. by apply Z.ltb_lt.
    + eexists _, _. split; [reflexivity|].
      eexists. split; [apply lookup_insert_eq|done].
Qed.

(** The fast path: nothing to replace, the input itself comes back with
    one more reference, and nothing else changes. *)
Lemma escape_unicode_shares fuel in_ quotes o t w :
  heap (py w) !! in_ = Some o -> ob_data o = DUnicode t ->
  (length t < fuel)%nat ->
  substitutions quotes t = 0%nat ->
  exists w',
    escape_unicode api g fuel in_ quotes w = Ret (Some in_, w') /\
    text_at (py w') in_ t /\
    dom (heap (py w')) = dom (heap (py w)) /\
    mem_free (py w') = mem_free (py w) /\
    (forall op, op <> in_ -> heap (py w') !! op = heap (py w) !! op).
Proof.
  intros Hin Ht Hf E. rewrite (escape_unicode_spec api imp fuel in_ quotes o t w) by done.
  unfold escape_unicode_result. rewrite decide_True by done.
  eexists. split; [reflexivity|]. cbn [py called on_py set_heap heap mem_free].
  repeat split.
  - eexists. split; [apply lookup_insert_eq|done].
  - rewrite dom_insert_L. apply (elem_of_dom_2 (D := gset addr)) in Hin. set_solver.
  - intros op Hop. by rewrite lookup_insert_ne.
Qed.

End ScalarProperties.

(** ** The claims about the scalar escaper *)

(** C2 (delta-length correctness).  With the quotes escaped, the scalar
    escaper returns, and the text it returns is as long as the input
    plus the delta lengths of all its code points, where the delta
    length is 4 for the two quotes and the ampersand, 3 for the angle
    brackets and 0 otherwise.  It returns [NULL] only when the allocator
    cannot provide a buffer of that length. *)
Theorem escape_unicode_length (api : cpython) (imp : string -> option pymodule)
    (fuel : nat) (in_ : addr) (quotes : Z) (o : PyObject) (t : list Py_UNICODE)
    (w : world) :
  heap (py w) !! in_ = Some o -> ob_data o = DUnicode t ->
  (length t < fuel)%nat -> quotes <> 0 ->
  exists x w',
    escape_unicode api (loaded imp) fuel in_ quotes w = Ret (x, w') /\
    match x with
    | Some r =>
        exists t', text_at (py w') r t' /\
                   Z.of_nat (length t') = Z.of_nat (length t) + total_delta t
    | None => mem_free (py w) < Z.of_nat (length t) + total_delta t
    end.
Proof.
  intros Hin Ht Hf Hq.
  destruct (escape_unicode_returns api imp fuel in_ quotes o t w Hin Ht Hf)
    as (x & w' & Hrun & Hx).
  exists x, w'. split; [done|].
  rewrite <- (extra_length_total quotes t Hq).
  destruct x as [r|]; [|done].
  exists (escaped quotes t). split; [done|]. apply (length_escaped imp).
Qed.

(** C3 (quote toggle).  With [quotes] off the scalar escaper returns the
    text in which the ampersand and the angle brackets gave way to their
    references and every other code point, the two quotes among them,
    was copied; with [quotes] on the same three characters get the same
    references. *)
Theorem escape_unicode_quote_toggle (api : cpython) (imp : string -> option pymodule)
    (fuel : nat) (in_ : addr) (o : PyObject) (t : list Py_UNICODE) (w : world) :
  heap (py w) !! in_ = Some o -> ob_data o = DUnicode t ->
  (length t < fuel)%nat ->
  (exists x w',
     escape_unicode api (loaded imp) fuel in_ 0 w = Ret (x, w') /\
     match x with
     | Some r =>
         text_at (py w') r
           (c ← t; if bool_decide (c = AMP ∨ c = LT ∨ c = GT) then reference c else [c])
     | None => mem_free (py w) < Z.of_nat (length t) + extra_length 0 t
     end) /\
  (forall quotes, quotes <> 0 ->
   exists x w',
     escape_unicode api (loaded imp) fuel in_ quotes w = Ret (x, w') /\
     match x with
     | Some r =>
         text_at (py w') r
           (c ← t; if bool_decide (c = AMP ∨ c = LT ∨ c = GT ∨ c = DQUOTE ∨ c = SQUOTE)
                   then reference c else [c])
     | None => mem_free (py w) < Z.of_nat (length t) + extra_length quotes t
     end).
Proof.
  intros Hin Ht Hf. split; [|intros quotes Hq].
  - destruct (escape_unicode_returns api imp fuel in_ 0 o t w Hin Ht Hf)
      as (x & w' & Hrun & Hx).
    exists x, w'. split; [done|]. destruct x; [|done].
    replace (c ← t; if bool_decide (c = AMP ∨ c = LT ∨ c = GT) then reference c else [c])
      with (escaped 0 t); [done|].
    unfold escaped. apply list_bind_ext; [|done]. intros c.
    unfold subst, replaced. simpl. by rewrite orb_false_r.
  - destruct (escape_unicode_returns api imp fuel in_ quotes o t w Hin Ht Hf)
      as (x & w' & Hrun & Hx).
    exists x, w'. split; [done|]. destruct x; [|done].
    replace (c ← t; if bool_decide (c = AMP ∨ c = LT ∨ c = GT ∨ c = DQUOTE ∨ c = SQUOTE)
                    then reference c else [c])
      with (escaped quotes t); [done|].
    unfold escaped. apply list_bind_ext; [|done]. intros c.
    unfold subst, replaced. destruct (Z.eqb_spec quotes 0); [done|]. simpl.
    repeat case_bool_decide; try done; exfalso; tauto.
Qed.

(** C4 (fast path).  When the text has none of the characters to replace
    (none of the ampersand and the angle brackets, and with [quotes] on
    none of the two quotes either; the empty text is such a text), the
    scalar escaper returns its input, the same object: the heap has the
    same objects as before, the allocator was not used, and no object
    other than the input changed. *)
Theorem escape_unicode_fast_path (api : cpython) (imp : string -> option pymodule)
    (fuel : nat) (in_ : addr) (quotes : Z) (o : PyObject) (t : list Py_UNICODE)
    (w : world) :
  heap (py w) !! in_ = Some o -> ob_data o = DUnicode t ->
  (length t < fuel)%nat ->
  (forall c, c ∈ t ->
     c <> AMP /\ c <> LT /\ c <> GT /\ (quotes <> 0 -> c <> DQUOTE /\ c <> SQUOTE)) ->
  exists w',
    escape_unicode api (loaded imp) fuel in_ quotes w = Ret (Some in_, w') /\
    text_at (py w') in_ t /\
    dom (heap (py w')) = dom (heap (py w)) /\
    mem_free (py w') = mem_free (py w) /\
    (forall op, op <> in_ -> heap (py w') !! op = heap (py w) !! op).
Proof.
  intros Hin Ht Hf Hnone.
  apply (escape_unicode_shares api imp fuel in_ quotes o t w Hin Ht Hf).
  apply substitutions_none. intros c Hc. apply replaced_false_iff. by apply Hnone.
Qed.

(** The empty text takes the fast path. *)
Lemma escape_unicode_empty (api : cpython) (imp : string -> option pymodule)
    (fuel : nat) (in_ : addr) (quotes : Z) (o : PyObject) (w : world) :
  heap (py w) !! in_ = Some o -> ob_data o = DUnicode [] ->
  exists w',
    escape_unicode api (loaded imp) (S fuel) in_ quotes w = Ret (Some in_, w') /\
    text_at (py w') in_ [] /\
    dom (heap (py w')) = dom (heap (py w)) /\
    mem_free (py w') = mem_free (py w).
Proof.
  intros Hin Ht.
  destruct (escape_unicode_shares api imp (S fuel) in_ quotes o [] w Hin Ht)
    as (w' & H1 & H2 & H3 & H4 & _); [simpl; lia|done|].
  by exists w'.
Qed.

(** C5 (scenario).  On the text [<b>"hi" & 'bye'</b>] with the quotes
    escaped, the scalar escaper returns the text
    [&lt;b&gt;&#34;hi&#34; &amp; &#39;bye&#39;&lt;/b&gt;], or [NULL] when the
    allocator cannot provide its 51 code units. *)
Theorem escape_unicode_scenario (api : cpython) (imp : string -> option pymodule)
    (fuel : nat) (in_ : addr) (o : PyObject) (w : world) :
  heap (py w) !! in_ = Some o -> ob_data o = DUnicode scenario_input ->
  (length scenario_input < fuel)%nat ->
  exists x w',
    escape_unicode api (loaded imp) fuel in_ 1 w = Ret (x, w') /\
    match x with
    | Some r => text_at (py w') r scenario_output
    | None => mem_free (py w) < 51
    end.
Proof.
  intros Hin Ht Hf.
  destruct (escape_unicode_returns api imp fuel in_ 1 o _ w Hin Ht Hf)
    as (x & w' & Hrun & Hx).
  exists x, w'. split; [done|]. by destruct x.
Qed.

(** C7 (table bound).  The two tables have no cell at an index of
    [ESCAPED_CHARS_TABLE_SIZE] or beyond: reading one there is a crash.
    The scalar escaper never crashes, so it never reads there; and a
    code point at or beyond the bound is copied as it is, between the
    escaped text before it and the escaped text after it. *)
Theorem escape_unicode_table_bound (api : cpython) (imp : string -> option pymodule)
    (fuel : nat) (in_ : addr) (quotes : Z) (o : PyObject) (t : list Py_UNICODE)
    (w : world) :
  heap (py w) !! in_ = Some o -> ob_data o = DUnicode t ->
  (length t < fuel)%nat ->
  (forall c, (ESCAPED_CHARS_TABLE_SIZE <= c)%N ->
     delta_len_at (loaded imp) c = Crash /\ repl_at (loaded imp) c = Crash) /\
  exists x w',
    escape_unicode api (loaded imp) fuel in_ quotes w = Ret (x, w') /\
    match x with
    | Some r =>
        exists t', text_at (py w') r t' /\
          forall pre c post,
            t = pre ++ c :: post -> (ESCAPED_CHARS_TABLE_SIZE <= c)%N ->
            t' = escaped quotes pre ++ c :: escaped quotes post
    | None => mem_free (py w) < Z.of_nat (length t) + extra_length quotes t
    end.
Proof.
  intros Hin Ht Hf. split.
  - intros c Hc. unfold delta_len_at, repl_at, ESCAPED_CHARS_TABLE_SIZE in *.
    rewrite delta_len_table, repl_table.
    rewrite !lookup_ge_None_2; [done| |];
      unfold store; rewrite !length_insert, length_replicate; lia.
  - destruct (escape_unicode_returns api imp fuel in_ quotes o t w Hin Ht Hf)
      as (x & w' & Hrun & Hx).
    exists x, w'. split; [done|]. destruct x; [|done].
    exists (escaped quotes t). split; [done|].
    intros pre c post -> Hc. rewrite escaped_app, escaped_cons. do 2 f_equal.
    unfold subst. rewrite <- candidate_replaced. unfold candidate.
    destruct (N.ltb_spec c ESCAPED_CHARS_TABLE_SIZE); [lia|done].
Qed.

(** *** The scalar claims at work in the small interpreter *)

Lemma escape_unicode_length_witness :
  let w := Interp.world_with 1000 in
  let o := Interp.object PyUnicode_Type (DUnicode scenario_input) in
  (heap (py w) !! 6%positive = Some o /\ ob_data o = DUnicode scenario_input /\
   (length scenario_input < 100)%nat /\ 1 <> 0) /\
  exists x w',
    escape_unicode Interp.api (loaded (genshi_core PyUnicode_Type)) 100 6%positive 1 w = Ret (x, w') /\
    match x with
    | Some r =>
        exists t', text_at (py w') r t' /\
          Z.of_nat (length t') = Z.of_nat (length scenario_input) + total_delta scenario_input
    | None =>
        mem_free (py w) < Z.of_nat (length scenario_input) + total_delta scenario_input
    end.
Proof.
  intros w o.
  assert (H1 : heap (py w) !! 6%positive = Some o) by (vm_compute; reflexivity).
  assert (H2 : ob_data o = DUnicode scenario_input) by reflexivity.
  assert (H3 : (length scenario_input < 100)%nat) by (vm_compute; lia).
  assert (H4 : 1 <> 0) by lia.
  split; [done|].
  exact (escape_unicode_length Interp.api (genshi_core PyUnicode_Type) 100 6%positive 1 o
           scenario_input w H1 H2 H3 H4).
Defined.

Lemma escape_unicode_quote_toggle_witness :
  let w := Interp.world_with 1000 in
  let o := Interp.object PyUnicode_Type (DUnicode scenario_input) in
  (heap (py w) !! 6%positive = Some o /\ ob_data o = DUnicode scenario_input /\
   (length scenario_input < 100)%nat) /\
  exists x w',
    escape_unicode Interp.api (loaded (genshi_core PyUnicode_Type)) 100 6%positive 0 w = Ret (x, w') /\
    match x with
    | Some r =>
        text_at (py w') r
          (c ← scenario_input;
           if bool_decide (c = AMP ∨ c = LT ∨ c = GT) then reference c else [c])
    | None =>
        mem_free (py w) < Z.of_nat (length scenario_input) + extra_length 0 scenario_input
    end.
Proof.
  intros w o.
  assert (H1 : heap (py w) !! 6%positive = Some o) by (vm_compute; reflexivity).
  assert (H2 : ob_data o = DUnicode scenario_input) by reflexivity.
  assert (H3 : (length scenario_input < 100)%nat) by (vm_compute; lia).
  split; [done|].
  exact (proj1 (escape_unicode_quote_toggle Interp.api (genshi_core PyUnicode_Type) 100 6%positive o
                  scenario_input w H1 H2 H3)).
Defined.

Lemma escape_unicode_fast_path_witness :
  let w := Interp.world_with 1000 in
  let t := units "plain text" in
  let o := Interp.object PyUnicode_Type (DUnicode t) in
  (heap (py w) !! 7%positive = Some o /\ ob_data o = DUnicode t /\ (length t < 100)%nat /\
   (forall c, c ∈ t ->
      c <> AMP /\ c <> LT /\ c <> GT /\ ((1:Z) <> 0 -> c <> DQUOTE /\ c <> SQUOTE))) /\
  exists w',
    escape_unicode Interp.api (loaded (genshi_core PyUnicode_Type)) 100 7%positive 1 w
      = Ret (Some 7%positive, w') /\
    text_at (py w') 7%positive t /\
    dom (heap (py w')) = dom (heap (py w)) /\
    mem_free (py w') = mem_free (py w) /\
    (forall op, op <> 7%positive -> heap (py w') !! op = heap (py w) !! op).
Proof.
  intros w t o.
  assert (H1 : heap (py w) !! 7%positive = Some o) by (vm_compute; reflexivity).
  assert (H2 : ob_data o = DUnicode t) by reflexivity.
  assert (H3 : (length t < 100)%nat) by (vm_compute; lia).
  assert (H4 : forall c, c ∈ t ->
            c <> AMP /\ c <> LT /\ c <> GT /\ ((1:Z) <> 0 -> c <> DQUOTE /\ c <> SQUOTE)).
  { apply Forall_forall. repeat constructor; discriminate. }
  split; [done|].
  exact (escape_unicode_fast_path Interp.api (genshi_core PyUnicode_Type) 100 7%positive 1 o t w
           H1 H2 H3 H4).
Defined.

Lemma escape_unicode_scenario_witness :
  let w := Interp.world_with 1000 in
  let o := Interp.object PyUnicode_Type (DUnicode scenario_input) in
  (heap (py w) !! 6%positive = Some o /\ ob_data o = DUnicode scenario_input /\
   (length scenario_input < 100)%nat) /\
  exists x w',
    escape_unicode Interp.api (loaded (genshi_core PyUnicode_Type)) 100 6%positive 1 w = Ret (x, w') /\
    match x with
    | Some r => text_at (py w') r scenario_output
    | None => mem_free (py w) < 51
    end.
Proof.
  intros w o.
  assert (H1 : heap (py w) !! 6%positive = Some o) by (vm_compute; reflexivity).
  assert (H2 : ob_data o = DUnicode scenario_input) by reflexivity.
  assert (H3 : (length scenario_input < 100)%nat) by (vm_compute; lia).
  split; [done|].
  exact (escape_unicode_scenario Interp.api (genshi_core PyUnicode_Type) 100 6%positive o w H1 H2 H3).
Defined.

Lemma escape_unicode_table_bound_witness :
  let w := Interp.world_with 1000 in
  let o := Interp.object PyUnicode_Type (DUnicode scenario_input) in
  (heap (py w) !! 6%positive = Some o /\ ob_data o = DUnicode scenario_input /\
   (length scenario_input < 100)%nat) /\
  (forall c, (ESCAPED_CHARS_TABLE_SIZE <= c)%N ->
     delta_len_at (loaded (genshi_core PyUnicode_Type)) c = Crash /\
     repl_at (loaded (genshi_core PyUnicode_Type)) c = Crash) /\
  exists x w',
    escape_unicode Interp.api (loaded (genshi_core PyUnicode_Type)) 100 6%positive 1 w = Ret (x, w') /\
    match x with
    | Some r =>
        exists t', text_at (py w') r t' /\
          forall pre c post,
            scenario_input = pre ++ c :: post -> (ESCAPED_CHARS_TABLE_SIZE <= c)%N ->
            t' = escaped 1 pre ++ c :: escaped 1 post
    | None =>
        mem_free (py w) < Z.of_nat (length scenario_input) + extra_length 1 scenario_input
    end.
Proof.
  intros w o.
  assert (H1 : heap (py w) !! 6%positive = Some o) by (vm_compute; reflexivity).
  assert (H2 : ob_data o = DUnicode scenario_input) by reflexivity.
  assert (H3 : (length scenario_input < 100)%nat) by (vm_compute; lia).
  split; [done|].
  exact (escape_unicode_table_bound Interp.api (genshi_core PyUnicode_Type) 100 6%positive 1 o
           scenario_input w H1 H2 H3).
Defined.

(** ** The dispatcher *)

Section Dispatcher.

Variable api : cpython.
Variable base : pytype.
Local Abbreviation g := (loaded (genshi_core base)).

Lemma markup_loaded : markup g = Some (Markup base).
Proof. reflexivity. Qed.

Lemma ext_run {A} (f : pystate -> A * pystate) (w : world) (a : A) (s : pystate) :
  f (py w) = (a, s) -> ext f w = Ret (a, {| py := s; esc_calls := esc_calls w |}).
Proof. unfold ext. by intros ->. Qed.

Lemma tp_mro_self (t : pytype) : t ∈ tp_mro t.
Proof. destruct t; simpl; set_solver. Qed.

Lemma PyObject_TypeCheck_run (ob : addr) (o : PyObject) (tp : pytype) (w : world) :
  heap (py w) !! ob = Some o ->
  PyObject_TypeCheck ob (Some tp) w = Ret (PyType_IsSubtype (ob_type o) tp, w).
Proof.
  intros H. unfold PyObject_TypeCheck.
  rewrite (bind_run _ _ _ _ _ (Py_TYPE_run _ _ _ H)). unfold ret. do 2 f_equal.
  case_bool_decide as E; [|done]. rewrite E. simpl.
  symmetry. apply bool_decide_eq_true. apply tp_mro_self.
Qed.

(** A class is not among the bases of a built-in type. *)
Lemma builtin_not_markup (t : pytype) :
  t = PyLong_Type ∨ t = PyFloat_Type ∨ t = PyBool_Type ∨ t = PyNone_Type ->
  PyType_IsSubtype t (Markup base) = false.
Proof.
  intros [->|[->|[->| ->]]]; apply bool_decide_eq_false; simpl; set_solver.
Qed.

(** In a single line of inheritance the integer types and the
    floating-point types are no text types. *)
Lemma number_not_text (t : pytype) :
  PyType_IsSubtype t PyLong_Type = true ∨ PyType_IsSubtype t PyFloat_Type = true ->
  PyUnicode_Check t = false.
Proof.
  unfold PyUnicode_Check, PyType_IsSubtype.
  rewrite !bool_decide_eq_true, bool_decide_eq_false.
  induction t; simpl; set_solver.
Qed.

(** The dispatcher up to its decision, for a value [o] at [text]. *)
Lemma escape_dispatch fuel self args kwds w s1 text given o :
  PyArg_ParseTupleAndKeywords api args kwds "O|i" ["text"; "quotes"] (py w)
    = (Some (text, given), s1) ->
  heap s1 !! text = Some o ->
  escape api g fuel self args kwds w =
  let w1 := {| py := s1; esc_calls := esc_calls w |} in
  if PyType_IsSubtype (ob_type o) (Markup base) then
    Ret (Some text, on_py (set_heap (<[text := set_refcnt (ob_refcnt o + 1) o]> (heap s1))) w1)
  else if PyLong_CheckExact (ob_type o) || PyFloat_CheckExact (ob_type o)
          || PyBool_Check (ob_type o) || bool_decide (text = Py_None)
  then PyObject_CallFunctionObjArgs api (Some (Markup base)) [Some text; None] w1
  else
    (html <- ext (PyObject_GetAttrString api text "__html__") ;;
     match html with
     | Some html =>
         rv <- ext (PyObject_CallObject api html None) ;;
         Py_DECREF api (Some html) ;;
         ret rv
     | None => escape_text api g fuel text (default 1 given)
     end) w1.
Proof.
  intros Hparse Hheap. unfold escape.
  erewrite bind_run by (by apply ext_run). cbn iota beta zeta.
  rewrite markup_loaded.
  erewrite bind_run by (by apply PyObject_TypeCheck_run). cbn beta.
  destruct (PyType_IsSubtype (ob_type o) (Markup base)); cbn iota.
  - by erewrite bind_run by (by apply Py_INCREF_run).
  - erewrite bind_run by (by apply Py_TYPE_run). cbn beta.
    by destruct (_ || _).
Qed.

(** The text path after a failed probe: the error is cleared first. *)
Lemma escape_text_clears fuel text quotes s calls :
  escape_text api g fuel text quotes {| py := s; esc_calls := calls |} =
  escape_text api g fuel text quotes {| py := set_curexc None s; esc_calls := calls |}.
Proof. reflexivity. Qed.

(** A value that is no text goes through [PyObject_Str]. *)
Lemma escape_text_converts fuel text quotes o w :
  heap (py w) !! text = Some o -> PyUnicode_Check (ob_type o) = false ->
  escape_text api g fuel text quotes w =
  convert_and_escape api g fuel text quotes (on_py (set_curexc None) w).
Proof.
  intros Hheap Hu. unfold escape_text.
  erewrite bind_run by reflexivity.
  erewrite bind_run by (by apply Py_TYPE_run).
  by rewrite Hu.
Qed.

(** The last step of the dispatcher dereferences its argument: with
    [NULL] for [s] it calls the type without arguments and then crashes
    in [Py_DECREF]. *)
Lemma escape_mark_null (g' : globals) (w : world) : escape_mark api g' None w = Crash.
Proof.
  unfold escape_mark. by destruct (markup g').
Qed.

(** After a failed probe the dispatcher takes its last branch, in the
    state the probe left. *)
Lemma escape_falls_through fuel self args kwds w s1 s2 text given o :
  PyArg_ParseTupleAndKeywords api args kwds "O|i" ["text"; "quotes"] (py w)
    = (Some (text, given), s1) ->
  heap s1 !! text = Some o ->
  PyType_IsSubtype (ob_type o) (Markup base) = false ->
  ob_type o <> PyLong_Type -> ob_type o <> PyFloat_Type -> ob_type o <> PyBool_Type ->
  text <> Py_None ->
  PyObject_GetAttrString api text "__html__" s1 = (None, s2) ->
  escape api g fuel self args kwds w =
  escape_text api g fuel text (default 1 given) {| py := s2; esc_calls := esc_calls w |}.
Proof.
  intros Hparse Hheap Hm H1 H2 H3 H4 Hprobe.
  rewrite (escape_dispatch fuel self args kwds w s1 text given o Hparse Hheap).
  cbn zeta. rewrite Hm.
  unfold PyLong_CheckExact, PyFloat_CheckExact, PyBool_Check.
  rewrite !bool_decide_eq_false_2 by done. cbn [orb].
  by erewrite bind_run by (by apply ext_run).
Qed.

(** A failing [__html__] method: its [NULL] is what [escape] returns,
    after the reference to the method is dropped. *)
Lemma escape_html_failure fuel self args kwds w s1 s2 s3 text given o html :
  PyArg_ParseTupleAndKeywords api args kwds "O|i" ["text"; "quotes"] (py w)
    = (Some (text, given), s1) ->
  heap s1 !! text = Some o ->
  PyType_IsSubtype (ob_type o) (Markup base) = false ->
  ob_type o <> PyLong_Type -> ob_type o <> PyFloat_Type -> ob_type o <> PyBool_Type ->
  text <> Py_None ->
  PyObject_GetAttrString api text "__html__" s1 = (Some html, s2) ->
  PyObject_CallObject api html None s2 = (None, s3) ->
  escape api g fuel self args kwds w =
  (Py_DECREF api (Some html) ;; ret None) {| py := s3; esc_calls := esc_calls w |}.
Proof.
  intros Hparse Hheap Hm H1 H2 H3 H4 Hprobe Hcall.
  rewrite (escape_dispatch fuel self args kwds w s1 text given o Hparse Hheap).
  cbn zeta. rewrite Hm.
  unfold PyLong_CheckExact, PyFloat_CheckExact, PyBool_Check.
  rewrite !bool_decide_eq_false_2 by done. cbn [orb].
  erewrite bind_run by (by apply ext_run). cbn iota beta.
  by erewrite bind_run by (by apply ext_run).
Qed.

(** A failing conversion to text: [escape] returns [NULL] in the state
    the conversion left, its error indicator included. *)
Lemma escape_str_failure fuel self args kwds w s1 s2 s3 text given o o2 :
  PyArg_ParseTupleAndKeywords api args kwds "O|i" ["text"; "quotes"] (py w)
    = (Some (text, given), s1) ->
  heap s1 !! text = Some o ->
  PyType_IsSubtype (ob_type o) (Markup base) = false ->
  ob_type o <> PyLong_Type -> ob_type o <> PyFloat_Type -> ob_type o <> PyBool_Type ->
  text <> Py_None ->
  PyObject_GetAttrString api text "__html__" s1 = (None, s2) ->
  heap s2 !! text = Some o2 -> PyUnicode_Check (ob_type o2) = false ->
  PyObject_Str api text (set_curexc None s2) = (None, s3) ->
  escape api g fuel self args kwds w = Ret (None, {| py := s3; esc_calls := esc_calls w |}).
Proof.
  intros Hparse Hheap Hm H1 H2 H3 H4 Hprobe Hheap2 Hu Hstr.
  rewrite (escape_falls_through fuel self args kwds w s1 s2 text given o) by done.
  rewrite (escape_text_converts fuel text _ o2) by done.
  unfold convert_and_escape.
  by erewrite bind_run by (by apply ext_run).
Qed.

(** Each call of the scalar escaper is recorded. *)
Lemma escape_unicode_recorded fuel in_ quotes o t w x w' :
  heap (py w) !! in_ = Some o -> ob_data o = DUnicode t ->
  (length t < fuel)%nat ->
  escape_unicode api g fuel in_ quotes w = Ret (x, w') ->
  esc_calls w' = (in_, quotes) :: esc_calls w.
Proof.
  intros Hin Ht Hf.
  rewrite (escape_unicode_spec api (genshi_core base) fuel in_ quotes o t w) by done.
  unfold escape_unicode_result.
  repeat case_match; intros [= <- <-]; reflexivity.
Qed.

End Dispatcher.

(** ** The claims about the dispatcher *)

(** C1 (idempotence).  For a value that is an instance of [Markup],
    [escape] returns the value itself: the same address, where the same
    object sits with one more reference; no other object changed or
    appeared, and the scalar escaper was not called. *)
Theorem escape_markup_identity (api : cpython) (base : pytype) (fuel : nat)
    (self args : addr) (kwds : option addr) (w : world) (s1 : pystate)
    (text : addr) (given : option Z) (o : PyObject) :
  PyArg_ParseTupleAndKeywords api args kwds "O|i" ["text"; "quotes"] (py w)
    = (Some (text, given), s1) ->
  heap s1 !! text = Some o ->
  PyType_IsSubtype (ob_type o) (Markup base) = true ->
  exists w',
    escape api (loaded (genshi_core base)) fuel self args kwds w = Ret (Some text, w') /\
    heap (py w') !! text = Some (set_refcnt (ob_refcnt o + 1) o) /\
    (forall op, op <> text -> heap (py w') !! op = heap s1 !! op) /\
    dom (heap (py w')) = dom (heap s1) /\
    curexc (py w') = curexc s1 /\ mem_free (py w') = mem_free s1 /\
    esc_calls w' = esc_calls w.
Proof.
  intros Hparse Hheap Hm.
  rewrite (escape_dispatch api base fuel self args kwds w s1 text given o Hparse Hheap).
  cbn zeta. rewrite Hm. eexists. split; [reflexivity|].
  cbn [on_py py set_heap heap curexc mem_free esc_calls].
  repeat split.
  - apply lookup_insert_eq.
  - intros op Hop. by rewrite lookup_insert_ne.
  - rewrite dom_insert_L. apply (elem_of_dom_2 (D := gset addr)) in Hheap. set_solver.
Qed.

(** C6 (numeric short-circuit).  For a value whose type is exactly
    [int], [float] or [bool], and for [None], [escape] returns what
    calling [Markup] on the value itself returns, in the state the
    argument parsing left, and the scalar escaper is not called. *)
Theorem escape_numeric_short_circuit (api : cpython) (base : pytype) (fuel : nat)
    (self args : addr) (kwds : option addr) (w : world) (s1 : pystate)
    (text : addr) (given : option Z) (o : PyObject) :
  PyArg_ParseTupleAndKeywords api args kwds "O|i" ["text"; "quotes"] (py w)
    = (Some (text, given), s1) ->
  heap s1 !! text = Some o ->
  ob_type o = PyLong_Type ∨ ob_type o = PyFloat_Type ∨ ob_type o = PyBool_Type ∨
    (text = Py_None /\ ob_type o = PyNone_Type) ->
  escape api (loaded (genshi_core base)) fuel self args kwds w =
  Ret (fst (tp_call api (Markup base) [text] s1),
       {| py := snd (tp_call api (Markup base) [text] s1);
          esc_calls := esc_calls w |}).
Proof.
  intros Hparse Hheap Hty.
  rewrite (escape_dispatch api base fuel self args kwds w s1 text given o Hparse Hheap).
  cbn zeta. rewrite builtin_not_markup by tauto.
  unfold PyLong_CheckExact, PyFloat_CheckExact, PyBool_Check.
  destruct Hty as [->|[->|[->|[-> _]]]]; [reflexivity..|].
  rewrite (bool_decide_eq_true_2 (Py_None = Py_None)) by done.
  by rewrite orb_true_r.
Qed.

(** C9 (probe errors are suppressed).  When the lookup of [__html__]
    fails, with whatever exception, [escape] goes on with the text path
    in the state the lookup left, the error indicator cleared. *)
Theorem escape_probe_error_suppressed (api : cpython) (base : pytype) (fuel : nat)
    (self args : addr) (kwds : option addr) (w : world) (s1 s2 : pystate)
    (text : addr) (given : option Z) (o : PyObject) :
  PyArg_ParseTupleAndKeywords api args kwds "O|i" ["text"; "quotes"] (py w)
    = (Some (text, given), s1) ->
  heap s1 !! text = Some o ->
  PyType_IsSubtype (ob_type o) (Markup base) = false ->
  ob_type o <> PyLong_Type -> ob_type o <> PyFloat_Type -> ob_type o <> PyBool_Type ->
  text <> Py_None ->
  PyObject_GetAttrString api text "__html__" s1 = (None, s2) ->
  escape api (loaded (genshi_core base)) fuel self args kwds w =
  escape_text api (loaded (genshi_core base)) fuel text (default 1 given)
    {| py := set_curexc None s2; esc_calls := esc_calls w |}.
Proof.
  intros Hparse Hheap Hm H1 H2 H3 H4 Hprobe.
  rewrite (escape_falls_through api base fuel self args kwds w s1 s2 text given o)
    by done.
  apply escape_text_clears.
Qed.

(** C8, the part that fails.  A text with something to replace, and an
    allocator that cannot provide the output buffer: [escape_unicode]
    returns [NULL], and [escape] goes on to mark that [NULL] and
    crashes; the caller never sees the [MemoryError]. *)
Theorem escape_allocation_failure_crashes (api : cpython) (base : pytype) (fuel : nat)
    (self args : addr) (kwds : option addr) (w : world) (s1 s2 : pystate)
    (text : addr) (given : option Z) (o o2 : PyObject) (t : list Py_UNICODE) :
  PyArg_ParseTupleAndKeywords api args kwds "O|i" ["text"; "quotes"] (py w)
    = (Some (text, given), s1) ->
  heap s1 !! text = Some o -> ob_type o = PyUnicode_Type -> text <> Py_None ->
  PyObject_GetAttrString api text "__html__" s1 = (None, s2) ->
  heap s2 !! text = Some o2 -> ob_type o2 = PyUnicode_Type -> ob_data o2 = DUnicode t ->
  (length t < fuel)%nat ->
  substitutions (default 1 given) t <> 0%nat ->
  mem_free s2 < Z.of_nat (length t) + extra_length (default 1 given) t ->
  escape api (loaded (genshi_core base)) fuel self args kwds w = Crash.
Proof.
  intros Hparse Hheap Hty Hnone Hprobe Hheap2 Hty2 Ht Hf Hsub Hmem.
  rewrite (escape_falls_through api base fuel self args kwds w s1 s2 text given o)
    by (done || rewrite Hty; done).
  unfold escape_text.
  erewrite bind_run by reflexivity.
  erewrite bind_run by (by apply Py_TYPE_run). rewrite Hty2. cbn iota beta.
  change (negb (PyUnicode_Check PyUnicode_Type)) with false. cbn iota.
  erewrite bind_run.
  2: { rewrite (escape_unicode_spec api (genshi_core base) fuel text _ o2 t) by done.
       unfold escape_unicode_result. rewrite decide_False by done.
       cbn [py called on_py set_curexc mem_free].
       apply Z.ltb_lt in Hmem. rewrite Hmem. reflexivity. }
  apply escape_mark_null.
Qed.

(** C10 as amended (subclasses of the number types).  A value whose type
    is a strict subclass of [int] or of [float], other than [bool], that
    is no instance of [Markup] and on which the lookup of [__html__]
    fails, is not wrapped directly: [escape] converts it to text with
    [PyObject_Str], runs the scalar escaper on that text and marks the
    result.  When the conversion gives a text object, the scalar escaper
    is called on it, once, and what it returns is what is marked. *)
Theorem escape_subclass_text_path (api : cpython) (base : pytype) (fuel : nat)
    (self args : addr) (kwds : option addr) (w : world) (s1 s2 : pystate)
    (text : addr) (given : option Z) (o o2 : PyObject) :
  PyArg_ParseTupleAndKeywords api args kwds "O|i" ["text"; "quotes"] (py w)
    = (Some (text, given), s1) ->
  heap s1 !! text = Some o ->
  (PyType_IsSubtype (ob_type o) PyLong_Type = true /\ ob_type o <> PyLong_Type) ∨
  (PyType_IsSubtype (ob_type o) PyFloat_Type = true /\ ob_type o <> PyFloat_Type) ->
  ob_type o <> PyBool_Type ->
  PyType_IsSubtype (ob_type o) (Markup base) = false ->
  text <> Py_None ->
  PyObject_GetAttrString api text "__html__" s1 = (None, s2) ->
  heap s2 !! text = Some o2 -> ob_type o2 = ob_type o ->
  let g := loaded (genshi_core base) in
  let quotes := default 1 given in
  escape api g fuel self args kwds w =
    convert_and_escape api g fuel text quotes
      {| py := set_curexc None s2; esc_calls := esc_calls w |} /\
  forall u s3 ou t,
    PyObject_Str api text (set_curexc None s2) = (Some u, s3) ->
    heap s3 !! u = Some ou -> ob_data ou = DUnicode t -> (length t < fuel)%nat ->
    exists x w3,
      escape_unicode api g fuel u quotes {| py := s3; esc_calls := esc_calls w |}
        = Ret (x, w3) /\
      esc_calls w3 = (u, quotes) :: esc_calls w /\
      match x with
      | Some r => text_at (py w3) r (escaped quotes t)
      | None => mem_free s3 < Z.of_nat (length t) + extra_length quotes t
      end /\
      escape api g fuel self args kwds w =
        (Py_DECREF api (Some u) ;; escape_mark api g x) w3.
Proof.
  intros Hparse Hheap Hsub Hbool Hm Hnone Hprobe Hheap2 Hty2 g quotes.
  assert (Hu : PyUnicode_Check (ob_type o) = false)
    by (apply number_not_text; tauto).
  assert (ob_type o <> PyLong_Type /\ ob_type o <> PyFloat_Type) as [H1 H2].
  { destruct Hsub as [[Hs Hne]|[Hs Hne]]; (split; [|]); try done;
      intros E; rewrite E in Hs; by vm_compute in Hs. }
  assert (Hpath : escape api g fuel self args kwds w =
                  convert_and_escape api g fuel text quotes
                    {| py := set_curexc None s2; esc_calls := esc_calls w |}).
  { unfold g.
    rewrite (escape_falls_through api base fuel self args kwds w s1 s2 text given o)
      by done.
    by rewrite (escape_text_converts api base fuel text _ o2)
      by (done || by rewrite Hty2). }
  split; [exact Hpath|].
  intros u s3 ou t Hstr Hheap3 Ht Hf.
  set (w2 := {| py := s3; esc_calls := esc_calls w |}).
  destruct (escape_unicode_returns api (genshi_core base) fuel u quotes ou t w2)
    as (x & w3 & Hrun & Hx); [done..|].
  exists x, w3. repeat split; try done.
  - by apply (escape_unicode_recorded api base fuel u quotes ou t w2 x w3).
  - rewrite Hpath. unfold convert_and_escape.
    erewrite bind_run by (by apply ext_run). cbn iota beta.
    fold w2. fold g. by erewrite bind_run by exact Hrun.
Qed.

(** *** The dispatcher claims at work in the small interpreter *)

Lemma escape_markup_identity_witness :
  let w := Interp.world_with 1000 in
  let o := Interp.object (Markup PyUnicode_Type) (DUnicode (units "<em>safe</em>")) in
  (PyArg_ParseTupleAndKeywords Interp.api 25%positive None "O|i" ["text"; "quotes"] (py w)
     = (Some (5%positive, None), py w) /\
   heap (py w) !! 5%positive = Some o /\
   PyType_IsSubtype (ob_type o) (Markup PyUnicode_Type) = true) /\
  exists w',
    escape Interp.api (loaded (genshi_core PyUnicode_Type)) 100 20%positive 25%positive None w
      = Ret (Some 5%positive, w') /\
    heap (py w') !! 5%positive = Some (set_refcnt (ob_refcnt o + 1) o) /\
    (forall op, op <> 5%positive -> heap (py w') !! op = heap (py w) !! op) /\
    dom (heap (py w')) = dom (heap (py w)) /\
    curexc (py w') = curexc (py w) /\ mem_free (py w') = mem_free (py w) /\
    esc_calls w' = esc_calls w.
Proof.
  intros w o.
  assert (H1 : PyArg_ParseTupleAndKeywords Interp.api 25%positive None "O|i"
                 ["text"; "quotes"] (py w) = (Some (5%positive, None), py w))
    by (vm_compute; reflexivity).
  assert (H2 : heap (py w) !! 5%positive = Some o) by (vm_compute; reflexivity).
  assert (H3 : PyType_IsSubtype (ob_type o) (Markup PyUnicode_Type) = true)
    by (vm_compute; reflexivity).
  split; [done|].
  exact (escape_markup_identity Interp.api PyUnicode_Type 100 20%positive 25%positive None
           w (py w) 5%positive None o H1 H2 H3).
Defined.

Lemma escape_numeric_short_circuit_witness :
  let w := Interp.world_with 1000 in
  let o := Interp.object PyLong_Type (DLong 42) in
  (PyArg_ParseTupleAndKeywords Interp.api 23%positive None "O|i" ["text"; "quotes"] (py w)
     = (Some (3%positive, None), py w) /\
   heap (py w) !! 3%positive = Some o /\
   (ob_type o = PyLong_Type ∨ ob_type o = PyFloat_Type ∨ ob_type o = PyBool_Type ∨
    (3%positive = Py_None /\ ob_type o = PyNone_Type))) /\
  escape Interp.api (loaded (genshi_core PyUnicode_Type)) 100 20%positive 23%positive None w =
  Ret (fst (tp_call Interp.api (Markup PyUnicode_Type) [3%positive] (py w)),
       {| py := snd (tp_call Interp.api (Markup PyUnicode_Type) [3%positive] (py w));
          esc_calls := esc_calls w |}).
Proof.
  intros w o.
  assert (H1 : PyArg_ParseTupleAndKeywords Interp.api 23%positive None "O|i"
                 ["text"; "quotes"] (py w) = (Some (3%positive, None), py w))
    by (vm_compute; reflexivity).
  assert (H2 : heap (py w) !! 3%positive = Some o) by (vm_compute; reflexivity).
  assert (H3 : ob_type o = PyLong_Type ∨ ob_type o = PyFloat_Type ∨
               ob_type o = PyBool_Type ∨ (3%positive = Py_None /\ ob_type o = PyNone_Type))
    by (left; reflexivity).
  split; [done|].
  exact (escape_numeric_short_circuit Interp.api PyUnicode_Type 100 20%positive 23%positive
           None w (py w) 3%positive None o H1 H2 H3).
Defined.

Lemma escape_probe_error_suppressed_witness :
  let w := Interp.world_with 1000 in
  let o := Interp.object (PyHeapType "Broken" PyBaseObject_Type) DOther in
  let s2 := set_curexc (Some (PyExc_Exception "RuntimeError")) (py w) in
  (PyArg_ParseTupleAndKeywords Interp.api 29%positive None "O|i" ["text"; "quotes"] (py w)
     = (Some (9%positive, None), py w) /\
   heap (py w) !! 9%positive = Some o /\
   PyType_IsSubtype (ob_type o) (Markup PyUnicode_Type) = false /\
   ob_type o <> PyLong_Type /\ ob_type o <> PyFloat_Type /\ ob_type o <> PyBool_Type /\
   9%positive <> Py_None /\
   PyObject_GetAttrString Interp.api 9%positive "__html__" (py w) = (None, s2)) /\
  escape Interp.api (loaded (genshi_core PyUnicode_Type)) 100 20%positive 29%positive None w =
  escape_text Interp.api (loaded (genshi_core PyUnicode_Type)) 100 9%positive 1
    {| py := set_curexc None s2; esc_calls := esc_calls w |}.
Proof.
  intros w o s2.
  assert (H1 : PyArg_ParseTupleAndKeywords Interp.api 29%positive None "O|i"
                 ["text"; "quotes"] (py w) = (Some (9%positive, None), py w))
    by (vm_compute; reflexivity).
  assert (H2 : heap (py w) !! 9%positive = Some o) by (vm_compute; reflexivity).
  assert (H3 : PyType_IsSubtype (ob_type o) (Markup PyUnicode_Type) = false)
    by (vm_compute; reflexivity).
  assert (H4 : ob_type o <> PyLong_Type) by discriminate.
  assert (H5 : ob_type o <> PyFloat_Type) by discriminate.
  assert (H6 : ob_type o <> PyBool_Type) by discriminate.
  assert (H7 : 9%positive <> Py_None) by discriminate.
  assert (H8 : PyObject_GetAttrString Interp.api 9%positive "__html__" (py w) = (None, s2))
    by (vm_compute; reflexivity).
  split; [done|].
  exact (escape_probe_error_suppressed Interp.api PyUnicode_Type 100 20%positive 29%positive
           None w (py w) s2 9%positive None o H1 H2 H3 H4 H5 H6 H7 H8).
Defined.

Lemma escape_allocation_failure_crashes_witness :
  let w := Interp.world_with 0 in
  let o := Interp.object PyUnicode_Type (DUnicode (units "<")) in
  let s2 := set_curexc (Some PyExc_AttributeError) (py w) in
  (PyArg_ParseTupleAndKeywords Interp.api 34%positive None "O|i" ["text"; "quotes"] (py w)
     = (Some (14%positive, None), py w) /\
   heap (py w) !! 14%positive = Some o /\
   PyObject_GetAttrString Interp.api 14%positive "__html__" (py w) = (None, s2) /\
   substitutions 1 (units "<") <> 0%nat /\
   mem_free s2 < Z.of_nat (length (units "<")) + extra_length 1 (units "<")) /\
  escape Interp.api (loaded (genshi_core PyUnicode_Type)) 100 20%positive 34%positive None w
    = Crash.
Proof.
  intros w o s2.
  assert (H1 : PyArg_ParseTupleAndKeywords Interp.api 34%positive None "O|i"
                 ["text"; "quotes"] (py w) = (Some (14%positive, None), py w))
    by (vm_compute; reflexivity).
  assert (H2 : heap (py w) !! 14%positive = Some o) by (vm_compute; reflexivity).
  assert (H3 : ob_type o = PyUnicode_Type) by reflexivity.
  assert (H4 : 14%positive <> Py_None) by discriminate.
  assert (H5 : PyObject_GetAttrString Interp.api 14%positive "__html__" (py w) = (None, s2))
    by (vm_compute; reflexivity).
  assert (H6 : heap s2 !! 14%positive = Some o) by (vm_compute; reflexivity).
  assert (H7 : ob_data o = DUnicode (units "<")) by reflexivity.
  assert (H8 : (length (units "<") < 100)%nat) by (vm_compute; lia).
  assert (H9 : substitutions (default 1 None) (units "<") <> 0%nat)
    by (vm_compute; discriminate).
  assert (H10 : mem_free s2 <
                Z.of_nat (length (units "<")) + extra_length (default 1 None) (units "<"))
    by (vm_compute; reflexivity).
  split; [done|].
  exact (escape_allocation_failure_crashes Interp.api PyUnicode_Type 100 20%positive
           34%positive None w (py w) s2 14%positive None o o (units "<")
           H1 H2 H3 H4 H5 H6 H3 H7 H8 H9 H10).
Defined.

Lemma escape_subclass_text_path_witness :
  let w := Interp.world_with 1000 in
  let o := Interp.object (PyHeapType "Count" PyLong_Type) (DLong 7) in
  let s2 := set_curexc (Some PyExc_AttributeError) (py w) in
  (PyArg_ParseTupleAndKeywords Interp.api 28%positive None "O|i" ["text"; "quotes"] (py w)
     = (Some (8%positive, None), py w) /\
   heap (py w) !! 8%positive = Some o /\
   PyType_IsSubtype (ob_type o) PyLong_Type = true /\ ob_type o <> PyLong_Type /\
   ob_type o <> PyBool_Type /\
   PyType_IsSubtype (ob_type o) (Markup PyUnicode_Type) = false /\
   8%positive <> Py_None /\
   PyObject_GetAttrString Interp.api 8%positive "__html__" (py w) = (None, s2) /\
   heap s2 !! 8%positive = Some o) /\
  escape Interp.api (loaded (genshi_core PyUnicode_Type)) 100 20%positive 28%positive None w =
  convert_and_escape Interp.api (loaded (genshi_core PyUnicode_Type)) 100 8%positive 1
    {| py := set_curexc None s2; esc_calls := esc_calls w |}.
Proof.
  intros w o s2.
  assert (H1 : PyArg_ParseTupleAndKeywords Interp.api 28%positive None "O|i"
                 ["text"; "quotes"] (py w) = (Some (8%positive, None), py w))
    by (vm_compute; reflexivity).
  assert (H2 : heap (py w) !! 8%positive = Some o) by (vm_compute; reflexivity).
  assert (H3 : PyType_IsSubtype (ob_type o) PyLong_Type = true) by (vm_compute; reflexivity).
  assert (H4 : ob_type o <> PyLong_Type) by discriminate.
  assert (H5 : ob_type o <> PyBool_Type) by discriminate.
  assert (H6 : PyType_IsSubtype (ob_type o) (Markup PyUnicode_Type) = false)
    by (vm_compute; reflexivity).
  assert (H7 : 8%positive <> Py_None) by discriminate.
  assert (H8 : PyObject_GetAttrString Interp.api 8%positive "__html__" (py w) = (None, s2))
    by (vm_compute; reflexivity).
  assert (H9 : heap s2 !! 8%positive = Some o) by (vm_compute; reflexivity).
  split; [done|].
  exact (proj1 (escape_subclass_text_path Interp.api PyUnicode_Type 100 20%positive
                  28%positive None w (py w) s2 8%positive None o o H1 H2
                  (or_introl (conj H3 H4)) H5 H6 H7 H8 H9 eq_refl)).
Defined.

(** C10 as stated fails.  [True] has a type that is a strict subclass of
    [int], and [escape] wraps it directly: the call is the call of
    [Markup] on the value, and the scalar escaper is not run.  An
    instance of a subclass of [int] that has an [__html__] method is not
    converted either: [escape] returns what the method returns, a plain
    text here, not marked. *)
Lemma escape_subclass_counterexample :
  let w := Interp.world_with 1000 in
  (PyType_IsSubtype PyBool_Type PyLong_Type = true /\ PyBool_Type <> PyLong_Type /\
   heap (py w) !! 2%positive = Some (Interp.object PyBool_Type (DLong 1)) /\
   escape Interp.api Interp.g 100 20%positive 22%positive None w =
     PyObject_CallFunctionObjArgs Interp.api (markup Interp.g) [Some 2%positive; None] w /\
   exists r w',
     escape Interp.api Interp.g 100 20%positive 22%positive None w = Ret (Some r, w') /\
     esc_calls w' = [] /\
     heap (py w') !! r =
       Some (Interp.object (Markup PyUnicode_Type) (DUnicode (units "True")))) /\
  (let t := PyHeapType "Trusted" PyLong_Type in
   PyType_IsSubtype t PyLong_Type = true /\ t <> PyLong_Type /\
   heap (py w) !! 13%positive = Some (Interp.object t (DTuple [12%positive])) /\
   exists w',
     escape Interp.api Interp.g 100 20%positive 33%positive None w
       = Ret (Some 11%positive, w') /\
     esc_calls w' = [] /\
     heap (py w') !! 11%positive =
       Some (set_refcnt 2 (Interp.object PyUnicode_Type (DUnicode (units "<i>trusted</i>"))))).
Proof.
  intros w. split.
  - repeat split; try (vm_compute; reflexivity); try discriminate.
    eexists _, _. repeat split; vm_compute; reflexivity.
  - intros t. repeat split; try (vm_compute; reflexivity); try discriminate.
    eexists. repeat split; vm_compute; reflexivity.
Qed.

(** ** Further properties of the tables and of the scalar escaper *)

(** X1 (the tables after [init_constants]).  Whether or not the import
    of [genshi.core] succeeds, both tables keep their 63 cells and agree
    cell by cell: the delta length is 4 for the quotes and the ampersand,
    3 for the angle brackets and 0 elsewhere, never negative; the
    replacement pointer is [NULL] exactly where the delta length is 0,
    and elsewhere points at a zero-terminated buffer of delta length
    plus one code units, the first of them an ampersand.  The function
    returns 1 when the import succeeds and 0 when it fails. *)
Theorem init_constants_tables (imp : string -> option pymodule) :
  let r := init_constants imp static_globals in
  fst r = match imp "genshi.core" with Some _ => 1 | None => 0 end /\
  length (escaped_chars_delta_len (snd r)) = 63%nat /\
  length (escaped_chars_repl (snd r)) = 63%nat /\
  forall c : Py_UNICODE, (c < ESCAPED_CHARS_TABLE_SIZE)%N ->
    exists d,
      escaped_chars_delta_len (snd r) !! N.to_nat c = Some d /\
      d = delta_length c /\ 0 <= d /\
      (d = 0 -> escaped_chars_repl (snd r) !! N.to_nat c = Some None) /\
      (d <> 0 ->
       exists body,
         escaped_chars_repl (snd r) !! N.to_nat c = Some (Some (AMP :: body ++ [0%N])) /\
         Z.of_nat (length (AMP :: body)) = d + 1 /\ 0%N ∉ body).
Proof.
  intros r.
  assert (Hr : snd r = loaded imp) by reflexivity.
  split; [subst r; unfold init_constants; by destruct (imp _)|].
  rewrite Hr. rewrite delta_len_table at 1. rewrite repl_table at 1.
  split; [reflexivity|]. split; [reflexivity|].
  intros c Hc. exists (delta_length c).
  assert (Hn : (N.to_nat c < 63)%nat) by (unfold ESCAPED_CHARS_TABLE_SIZE in Hc; lia).
  split; [rewrite delta_len_lookup by done; by rewrite N2Nat.id|].
  split; [done|].
  split; [unfold delta_length; repeat case_bool_decide; lia|].
  split.
  - rewrite repl_table. rewrite <- (N2Nat.id c) at 1.
    generalize dependent (N.to_nat c). clear c Hc. intros n Hn.
    do 63 (destruct n as [|n]; [vm_compute; by intros; try discriminate|]). lia.
  - intros Hd. rewrite repl_table.
    destruct (delta_length_cases c Hd) as [->|[->|[->|[->| ->]]]];
      [exists [35; 51; 52; 59]%N | exists [35; 51; 57; 59]%N | exists [97; 109; 112; 59]%N
      | exists [108; 116; 59]%N | exists [103; 116; 59]%N];
      (split; [reflexivity|]); (split; [reflexivity|]); set_solver.
Qed.

Section FurtherScalar.

Variable api : cpython.
Variable imp : string -> option pymodule.
Local Abbreviation g := (loaded imp).

Lemma replaced_cases (quotes : Z) (c : Py_UNICODE) :
  replaced quotes c = true ->
  c = DQUOTE ∨ c = SQUOTE ∨ c = AMP ∨ c = LT ∨ c = GT.
Proof. intros H. apply delta_length_cases. by apply (replaced_delta quotes). Qed.

Lemma text_at_unique (s : pystate) (op : addr) (t u : list Py_UNICODE) :
  text_at s op t -> text_at s op u -> t = u.
Proof. intros (o & Ho & Ht) (o' & Ho' & Hu). congruence. Qed.

(** The text of the object the scalar escaper returns. *)
Lemma escape_unicode_text fuel in_ quotes o t w r w' u :
  heap (py w) !! in_ = Some o -> ob_data o = DUnicode t ->
  (length t < fuel)%nat ->
  escape_unicode api g fuel in_ quotes w = Ret (Some r, w') ->
  text_at (py w') r u -> u = escaped quotes t.
Proof.
  intros Hin Ht Hf Hrun Hu.
  destruct (escape_unicode_returns api imp fuel in_ quotes o t w Hin Ht Hf)
    as (x & w'' & Hrun' & Hx).
  rewrite Hrun in Hrun'. injection Hrun' as <- <-.
  by apply (text_at_unique (py w') r).
Qed.

(** No angle bracket is left in an escaped text, and no quote when the
    quotes are escaped. *)
Lemma escaped_safe (quotes : Z) (t : list Py_UNICODE) (c : Py_UNICODE) :
  c ∈ escaped quotes t ->
  c <> LT /\ c <> GT /\ (quotes <> 0 -> c <> DQUOTE /\ c <> SQUOTE).
Proof.
  induction t as [|x t IH]; [by intros ?%elem_of_nil|].
  rewrite escaped_cons, elem_of_app. intros [Hc|Hc]; [|by apply IH].
  unfold subst in Hc. destruct (replaced quotes x) eqn:Ex.
  - destruct (replaced_cases quotes x Ex) as [->|[->|[->|[->| ->]]]];
      apply list_elem_of_In in Hc; simpl in Hc;
      repeat (destruct Hc as [<-|Hc]; [by repeat split|]); done.
  - apply list_elem_of_singleton in Hc as ->.
    apply replaced_false_iff in Ex. tauto.
Qed.

(** A reference identifies the character it stands for. *)
Lemma reference_prefix_inj (quotes : Z) (c1 c2 : Py_UNICODE) (r1 r2 : list Py_UNICODE) :
  replaced quotes c1 = true -> replaced quotes c2 = true ->
  reference c1 ++ r1 = reference c2 ++ r2 -> c1 = c2 /\ r1 = r2.
Proof.
  intros H1 H2.
  destruct (replaced_cases quotes c1 H1) as [->|[->|[->|[->| ->]]]];
    destruct (replaced_cases quotes c2 H2) as [->|[->|[->|[->| ->]]]];
    vm_compute; intros [=]; by subst.
Qed.

(** Every reference starts with an ampersand. *)
Lemma reference_head (quotes : Z) (c : Py_UNICODE) :
  replaced quotes c = true -> exists r, reference c = AMP :: r.
Proof.
  intros Hc.
  destruct (replaced_cases quotes c Hc) as [->|[->|[->|[->| ->]]]]; by eexists.
Qed.

(** Escaping loses nothing: the text can be told from its escaped form. *)
Lemma escaped_inj (quotes : Z) (t1 : list Py_UNICODE) : forall t2,
  escaped quotes t1 = escaped quotes t2 -> t1 = t2.
Proof.
  assert (Hamp : forall c (r : list Py_UNICODE), replaced quotes c = true ->
                 exists r', reference c = AMP :: r').
  { intros c r Hc. by apply (reference_head quotes). }
  assert (Hra : replaced quotes AMP = true) by reflexivity.
  induction t1 as [|c1 t1 IH]; intros [|c2 t2].
  - done.
  - rewrite escaped_cons. unfold subst. intros H.
    destruct (replaced quotes c2) eqn:E2; [|done].
    destruct (Hamp c2 [] E2) as [r' Hr]. by rewrite Hr in H.
  - rewrite escaped_cons. unfold subst. intros H.
    destruct (replaced quotes c1) eqn:E1; [|done].
    destruct (Hamp c1 [] E1) as [r' Hr]. by rewrite Hr in H.
  - rewrite !escaped_cons. unfold subst.
    destruct (replaced quotes c1) eqn:E1, (replaced quotes c2) eqn:E2; intros H.
    + destruct (reference_prefix_inj quotes c1 c2 _ _ E1 E2 H) as [-> Hr].
      f_equal. by apply IH.
    + destruct (Hamp c1 [] E1) as [r' Hr]. rewrite Hr in H.
      injection H as <- _. congruence.
    + destruct (Hamp c2 [] E2) as [r' Hr]. rewrite Hr in H.
      injection H as -> _. congruence.
    + injection H as -> H. f_equal. by apply IH.
Qed.

Lemma extra_length_positive (quotes : Z) (t : list Py_UNICODE) :
  substitutions quotes t <> 0%nat -> 0 < extra_length quotes t.
Proof.
  induction t as [|c t IH]; [done|].
  rewrite substitutions_cons, extra_length_cons.
  pose proof (extra_length_nonneg quotes t).
  destruct (replaced quotes c) eqn:Ec.
  - intros _. destruct (replaced_delta quotes c Ec) as [Hd _].
    unfold delta_length in *. repeat case_bool_decide; lia.
  - intros H'. apply IH in H'. lia.
Qed.

Lemma substitutions_app (quotes : Z) (t1 t2 : list Py_UNICODE) :
  substitutions quotes (t1 ++ t2) =
  (substitutions quotes t1 + substitutions quotes t2)%nat.
Proof. unfold substitutions. by rewrite filter_app, length_app. Qed.

(** An escaped text has as many ampersands to replace as substitutions
    were made, at least. *)
Lemma substitutions_escaped (quotes : Z) (t : list Py_UNICODE) :
  (substitutions quotes t <= substitutions quotes (escaped quotes t))%nat.
Proof.
  induction t as [|c t IH]; [done|].
  rewrite escaped_cons, substitutions_app, substitutions_cons. unfold subst.
  destruct (replaced quotes c) eqn:Ec.
  - assert (1 <= substitutions quotes (reference c))%nat; [|lia].
    destruct (reference_head quotes c Ec) as [r ->].
    rewrite substitutions_cons. change (replaced quotes AMP) with true. cbn iota. lia.
  - rewrite substitutions_cons, Ec. simpl. lia.
Qed.

End FurtherScalar.

(** X2 (what the scalar escaper touches).  A run of [escape_unicode]
    never changes the text of its input and never changes any other
    object that was in the heap.  On the fast path nothing is allocated;
    otherwise exactly one object is added, at an address that was free,
    a text of the exact final size with one reference, and the allocator
    is charged that size; the error indicator is left alone.  When the
    allocation fails the heap is as before and [MemoryError] is set. *)
Theorem escape_unicode_effects (api : cpython) (imp : string -> option pymodule)
    (fuel : nat) (in_ : addr) (quotes : Z) (o : PyObject) (t : list Py_UNICODE)
    (w : world) :
  heap (py w) !! in_ = Some o -> ob_data o = DUnicode t ->
  (length t < fuel)%nat ->
  exists x w',
    escape_unicode api (loaded imp) fuel in_ quotes w = Ret (x, w') /\
    (forall op o', op <> in_ -> heap (py w) !! op = Some o' ->
                   heap (py w') !! op = Some o') /\
    (exists o', heap (py w') !! in_ = Some o' /\ ob_type o' = ob_type o /\
                ob_data o' = DUnicode t) /\
    match x with
    | None =>
        heap (py w') = heap (py w) /\ curexc (py w') = Some PyExc_MemoryError /\
        mem_free (py w') = mem_free (py w)
    | Some r =>
        curexc (py w') = curexc (py w) /\
        ((r = in_ /\ dom (heap (py w')) = dom (heap (py w)) /\
          mem_free (py w') = mem_free (py w)) ∨
         ((r ∉ dom (heap (py w))) /\
          dom (heap (py w')) = {[r]} ∪ dom (heap (py w)) /\
          mem_free (py w') =
            mem_free (py w) - (Z.of_nat (length t) + extra_length quotes t) /\
          heap (py w') !! r =
            Some {| ob_refcnt := 1; ob_type := PyUnicode_Type;
                    ob_data := DUnicode (escaped quotes t) |}))
    end.
Proof.
  intros Hin Ht Hf.
  rewrite (escape_unicode_spec api imp fuel in_ quotes o t w) by done.
  unfold escape_unicode_result. cbn [py called].
  pose proof (elem_of_dom_2 (D := gset addr) _ _ _ Hin) as Hdom.
  pose proof (is_fresh (dom (heap (py w)))) as Hfresh.
  destruct (decide (substitutions quotes t = 0%nat)) as [E|E];
    [|destruct (Z.ltb_spec (mem_free (py w))
                 (Z.of_nat (length t) + extra_length quotes t))];
    eexists _, _; (split; [reflexivity|]);
    cbn [py on_py set_heap set_curexc heap curexc mem_free].
  - split; [intros op o' Hop Ho; by rewrite lookup_insert_ne|].
    split; [eexists; split; [apply lookup_insert_eq|done]|].
    split; [done|]. left. split; [done|]. split; [|done].
    rewrite dom_insert_L. set_solver.
  - split; [done|]. split; [by exists o|]. done.
  - assert (fresh (dom (heap (py w))) <> in_) by (intros E'; by rewrite E' in Hfresh).
    split; [intros op o' Hop Ho; rewrite lookup_insert_ne; [done|]; intros <-;
            apply (elem_of_dom_2 (D := gset addr)) in Ho; done|].
    split; [exists o; by rewrite lookup_insert_ne|].
    split; [done|]. right. split; [done|]. split; [by rewrite dom_insert_L|].
    split; [done|]. apply lookup_insert_eq.
Qed.

(** X3 (the output is safe).  The text the scalar escaper returns holds
    no angle bracket, and with the quotes escaped no quote of either
    kind. *)
Theorem escape_unicode_output_safe (api : cpython) (imp : string -> option pymodule)
    (fuel : nat) (in_ : addr) (quotes : Z) (o : PyObject) (t u : list Py_UNICODE)
    (w w' : world) (r : addr) :
  heap (py w) !! in_ = Some o -> ob_data o = DUnicode t ->
  (length t < fuel)%nat ->
  escape_unicode api (loaded imp) fuel in_ quotes w = Ret (Some r, w') ->
  text_at (py w') r u ->
  forall c, c ∈ u ->
    c <> LT /\ c <> GT /\ (quotes <> 0 -> c <> DQUOTE /\ c <> SQUOTE).
Proof.
  intros Hin Ht Hf Hrun Hu c Hc.
  rewrite (escape_unicode_text api imp fuel in_ quotes o t w r w' u) in Hc by done.
  by apply (escaped_safe quotes t).
Qed.

(** X4 (escaping loses nothing).  Two texts whose escaped forms, made
    with the same [quotes], are the same text, are the same text. *)
Theorem escape_unicode_injective (api : cpython) (imp : string -> option pymodule)
    (fuel : nat) (quotes : Z) (in1 in2 : addr) (o1 o2 : PyObject)
    (t1 t2 u : list Py_UNICODE) (w1 w2 w1' w2' : world) (r1 r2 : addr) :
  heap (py w1) !! in1 = Some o1 -> ob_data o1 = DUnicode t1 -> (length t1 < fuel)%nat ->
  heap (py w2) !! in2 = Some o2 -> ob_data o2 = DUnicode t2 -> (length t2 < fuel)%nat ->
  escape_unicode api (loaded imp) fuel in1 quotes w1 = Ret (Some r1, w1') ->
  escape_unicode api (loaded imp) fuel in2 quotes w2 = Ret (Some r2, w2') ->
  text_at (py w1') r1 u -> text_at (py w2') r2 u ->
  t1 = t2.
Proof.
  intros Hin1 Ht1 Hf1 Hin2 Ht2 Hf2 Hrun1 Hrun2 Hu1 Hu2.
  apply (escaped_inj quotes).
  rewrite <- (escape_unicode_text api imp fuel in1 quotes o1 t1 w1 r1 w1' u) by done.
  by apply (escape_unicode_text api imp fuel in2 quotes o2 t2 w2 r2 w2' u).
Qed.

(** The object returned is the input itself exactly when the text has
    no character to replace. *)
Lemma returned_object_cases (api : cpython) (imp : string -> option pymodule)
    (fuel : nat) (in_ : addr) (quotes : Z) (o : PyObject) (t u : list Py_UNICODE)
    (w w' : world) (r : addr) :
  heap (py w) !! in_ = Some o -> ob_data o = DUnicode t ->
  (length t < fuel)%nat ->
  escape_unicode api (loaded imp) fuel in_ quotes w = Ret (Some r, w') ->
  text_at (py w') r u ->
  (length t <= length u)%nat /\
  (r = in_ <-> forall c, c ∈ t -> replaced quotes c = false) /\
  (r = in_ -> u = t) /\
  (r <> in_ -> (length t + 3 <= length u)%nat).
Proof.
  intros Hin Ht Hf Hrun Hu.
  pose proof (escape_unicode_text api imp fuel in_ quotes o t w r w' u Hin Ht Hf Hrun Hu)
    as ->.
  pose proof (length_escaped imp quotes t) as Hlen.
  pose proof (extra_length_nonneg quotes t) as Hnn.
  assert (Hiff : r = in_ <-> substitutions quotes t = 0%nat).
  { rewrite (escape_unicode_spec api imp fuel in_ quotes o t w) in Hrun by done.
    unfold escape_unicode_result in Hrun.
    pose proof (elem_of_dom_2 (D := gset addr) _ _ _ Hin) as Hdom.
    pose proof (is_fresh (dom (heap (py w)))) as Hfresh.
    destruct (decide (substitutions quotes t = 0%nat)) as [E|E].
    - injection Hrun as <- _. done.
    - cbn [py called] in Hrun. case_match; [done|].
      injection Hrun as <- _. split; [|done]. intros E'. by rewrite E' in Hfresh. }
  assert (Hnone : substitutions quotes t = 0%nat <->
                  forall c, c ∈ t -> replaced quotes c = false).
  { split; [|apply substitutions_none].
    clear. induction t as [|x t IH]; [by intros _ c ?%elem_of_nil|].
    rewrite substitutions_cons. destruct (replaced quotes x) eqn:Ex; [lia|].
    intros H c [->|Hc]%elem_of_cons; [done|]. apply IH; [lia|done]. }
  split; [lia|]. split; [by rewrite Hiff|]. split.
  - intros E%Hiff. by apply escaped_none.
  - intros Hne. assert (substitutions quotes t <> 0%nat) as Hs by (by rewrite <- Hiff).
    pose proof (extra_length_positive quotes t Hs).
    assert (3 <= extra_length quotes t); [|lia].
    clear -Hs. induction t as [|c t IH]; [done|].
    rewrite substitutions_cons in Hs. rewrite extra_length_cons.
    pose proof (extra_length_nonneg quotes t).
    destruct (replaced quotes c) eqn:Ec.
    + destruct (replaced_delta quotes c Ec) as [Hd _].
      unfold delta_length in *. repeat case_bool_decide; lia.
    + assert (3 <= extra_length quotes t) by (apply IH; lia). lia.
Qed.

(** X5 (same object or longer text).  The object returned is the input
    itself exactly when the text has no character to replace; otherwise
    it is another object, and its text is longer than the input by at
    least 3 code units.  The returned text is never shorter. *)
Theorem escape_unicode_same_or_longer (api : cpython) (imp : string -> option pymodule)
    (fuel : nat) (in_ : addr) (quotes : Z) (o : PyObject) (t u : list Py_UNICODE)
    (w w' : world) (r : addr) :
  heap (py w) !! in_ = Some o -> ob_data o = DUnicode t ->
  (length t < fuel)%nat ->
  escape_unicode api (loaded imp) fuel in_ quotes w = Ret (Some r, w') ->
  text_at (py w') r u ->
  (length t <= length u)%nat /\
  (r = in_ <-> forall c, c ∈ t -> replaced quotes c = false) /\
  (r = in_ -> u = t) /\
  (r <> in_ -> (length t + 3 <= length u)%nat).
Proof. apply returned_object_cases. Qed.

(** X6 (escaping is character by character).  The escaped form of a
    concatenation is the concatenation of the escaped forms. *)
Theorem escape_unicode_concat (api : cpython) (imp : string -> option pymodule)
    (fuel : nat) (quotes : Z) (in1 in2 in3 : addr) (o1 o2 o3 : PyObject)
    (t1 t2 u1 u2 u3 : list Py_UNICODE) (w1 w2 w3 w1' w2' w3' : world)
    (r1 r2 r3 : addr) :
  heap (py w1) !! in1 = Some o1 -> ob_data o1 = DUnicode t1 ->
  heap (py w2) !! in2 = Some o2 -> ob_data o2 = DUnicode t2 ->
  heap (py w3) !! in3 = Some o3 -> ob_data o3 = DUnicode (t1 ++ t2) ->
  (length (t1 ++ t2) < fuel)%nat ->
  escape_unicode api (loaded imp) fuel in1 quotes w1 = Ret (Some r1, w1') ->
  escape_unicode api (loaded imp) fuel in2 quotes w2 = Ret (Some r2, w2') ->
  escape_unicode api (loaded imp) fuel in3 quotes w3 = Ret (Some r3, w3') ->
  text_at (py w1') r1 u1 -> text_at (py w2') r2 u2 -> text_at (py w3') r3 u3 ->
  u3 = u1 ++ u2.
Proof.
  intros Hin1 Ht1 Hin2 Ht2 Hin3 Ht3 Hf Hrun1 Hrun2 Hrun3 Hu1 Hu2 Hu3.
  rewrite length_app in Hf.
  rewrite (escape_unicode_text api imp fuel in1 quotes o1 t1 w1 r1 w1' u1) by (done || lia).
  rewrite (escape_unicode_text api imp fuel in2 quotes o2 t2 w2 r2 w2' u2) by (done || lia).
  rewrite (escape_unicode_text api imp fuel in3 quotes o3 (t1 ++ t2) w3 r3 w3' u3)
    by (done || rewrite length_app; lia).
  apply escaped_app.
Qed.

(** X7 (escaping twice).  The scalar escaper does not know an escaped
    text: run on its own result it returns that result unchanged only
    when the first run had nothing to replace; otherwise it escapes the
    ampersands of the references and the text gets longer again. *)
Theorem escape_unicode_twice (api : cpython) (imp : string -> option pymodule)
    (fuel fuel2 : nat) (in_ : addr) (quotes : Z) (o : PyObject)
    (t u u2 : list Py_UNICODE) (w w1 w2 : world) (r1 r2 : addr) :
  heap (py w) !! in_ = Some o -> ob_data o = DUnicode t ->
  (length t < fuel)%nat ->
  escape_unicode api (loaded imp) fuel in_ quotes w = Ret (Some r1, w1) ->
  text_at (py w1) r1 u -> (length u < fuel2)%nat ->
  escape_unicode api (loaded imp) fuel2 r1 quotes w1 = Ret (Some r2, w2) ->
  text_at (py w2) r2 u2 ->
  (u2 = u <-> r1 = in_) /\ (r1 <> in_ -> (length u < length u2)%nat /\ r2 <> r1).
Proof.
  intros Hin Ht Hf Hrun1 Hu Hf2 Hrun2 Hu2.
  destruct (returned_object_cases api imp fuel in_ quotes o t u w w1 r1
              Hin Ht Hf Hrun1 Hu) as (_ & Hsame & Hut & _).
  pose proof (escape_unicode_text api imp fuel in_ quotes o t w r1 w1 u Hin Ht Hf Hrun1 Hu)
    as Eu.
  destruct Hu as (o1 & Ho1 & Hd1).
  destruct (returned_object_cases api imp fuel2 r1 quotes o1 u u2 w1 w2 r2
              Ho1 Hd1 Hf2 Hrun2 Hu2) as (_ & Hsame2 & Hut2 & Hlong2).
  assert (Hne : r1 <> in_ -> r2 <> r1).
  { intros Hr1 Hr2'. pose proof (proj1 Hsame2 Hr2') as Hr2.
    assert (Hs : substitutions quotes t <> 0%nat).
    { intros Hs. apply Hr1, (proj2 Hsame). intros c Hc.
      destruct (replaced quotes c) eqn:Ec; [|done].
      exfalso. revert Hs. clear -Hc Ec. induction t as [|x t IH]; [by apply elem_of_nil in Hc|].
      rewrite substitutions_cons. apply elem_of_cons in Hc as [->|Hc].
      - rewrite Ec. lia.
      - intros Hs. apply IH; [done|]. destruct (replaced quotes x); lia. }
    pose proof (substitutions_escaped quotes t) as Hle. rewrite <- Eu in Hle.
    rewrite (substitutions_none quotes u Hr2) in Hle. lia. }
  split; [split|].
  - intros E. destruct (decide (r1 = in_)) as [|Hr1]; [done|]. exfalso.
    specialize (Hlong2 (Hne Hr1)). rewrite E in Hlong2. lia.
  - intros Hr1. apply Hut2. apply (proj2 Hsame2). rewrite (Hut Hr1).
    by apply (proj1 Hsame).
  - intros Hr1. split; [|by apply Hne]. specialize (Hlong2 (Hne Hr1)). lia.
Qed.

(** X8 ([quotes] is a C truth value).  Any two non-zero values of
    [quotes] give the same escaped text. *)
Theorem escape_unicode_quotes_nonzero (api : cpython) (imp : string -> option pymodule)
    (fuel : nat) (in_ : addr) (q1 q2 : Z) (o : PyObject) (t u1 u2 : list Py_UNICODE)
    (w w1 w2 : world) (r1 r2 : addr) :
  heap (py w) !! in_ = Some o -> ob_data o = DUnicode t ->
  (length t < fuel)%nat -> q1 <> 0 -> q2 <> 0 ->
  escape_unicode api (loaded imp) fuel in_ q1 w = Ret (Some r1, w1) ->
  escape_unicode api (loaded imp) fuel in_ q2 w = Ret (Some r2, w2) ->
  text_at (py w1) r1 u1 -> text_at (py w2) r2 u2 ->
  u1 = u2 /\ r1 = r2.
Proof.
  intros Hin Ht Hf Hq1 Hq2 Hrun1 Hrun2 Hu1 Hu2.
  assert (Hrep : forall c, replaced q1 c = replaced q2 c).
  { intros c. unfold replaced.
    by destruct (Z.eqb_spec q1 0), (Z.eqb_spec q2 0). }
  assert (Hesc : escaped q1 t = escaped q2 t).
  { unfold escaped. apply list_bind_ext; [|done]. intros c. unfold subst. by rewrite Hrep. }
  assert (Hsub : substitutions q1 t = substitutions q2 t).
  { clear -Hrep. induction t as [|c t IH]; [done|].
    by rewrite !substitutions_cons, Hrep, IH. }
  assert (Hext : extra_length q1 t = extra_length q2 t).
  { clear -Hrep. induction t as [|c t IH]; [done|].
    by rewrite !extra_length_cons, Hrep, IH. }
  split.
  - rewrite (escape_unicode_text api imp fuel in_ q1 o t w r1 w1 u1) by done.
    by rewrite (escape_unicode_text api imp fuel in_ q2 o t w r2 w2 u2) by done.
  - rewrite (escape_unicode_spec api imp fuel in_ q1 o t w) in Hrun1 by done.
    rewrite (escape_unicode_spec api imp fuel in_ q2 o t w) in Hrun2 by done.
    unfold escape_unicode_result in Hrun1, Hrun2. cbn [py called] in Hrun1, Hrun2.
    rewrite Hsub, Hext in Hrun1.
    destruct (decide (substitutions q2 t = 0%nat)).
    + injection Hrun1 as <- _. by injection Hrun2 as <- _.
    + case_match; [done|]. injection Hrun1 as <- _. by injection Hrun2 as <- _.
Qed.

(** ** Further properties of the dispatcher *)

Section FurtherDispatcher.

Variable api : cpython.
Variable base : pytype.
Local Abbreviation g := (loaded (genshi_core base)).

Lemma text_not_number (t : pytype) :
  PyUnicode_Check t = true ->
  t <> PyLong_Type /\ t <> PyFloat_Type /\ t <> PyBool_Type.
Proof. intros H. repeat split; intros ->; by vm_compute in H. Qed.

(** The dispatcher on a text object that is no [Markup] and has no
    [__html__]: the scalar escaper runs on the object itself and its
    result is marked. *)
Lemma escape_text_object fuel self args kwds w s1 s2 text given o o2 :
  PyArg_ParseTupleAndKeywords api args kwds "O|i" ["text"; "quotes"] (py w)
    = (Some (text, given), s1) ->
  heap s1 !! text = Some o ->
  PyUnicode_Check (ob_type o) = true ->
  PyType_IsSubtype (ob_type o) (Markup base) = false ->
  text <> Py_None ->
  PyObject_GetAttrString api text "__html__" s1 = (None, s2) ->
  heap s2 !! text = Some o2 -> PyUnicode_Check (ob_type o2) = true ->
  escape api g fuel self args kwds w =
  (s <- escape_unicode api g fuel text (default 1 given) ;; escape_mark api g s)
    {| py := set_curexc None s2; esc_calls := esc_calls w |}.
Proof.
  intros Hparse Hheap Hu Hm Hnone Hprobe Hheap2 Hu2.
  destruct (text_not_number _ Hu) as (H1 & H2 & H3).
  rewrite (escape_falls_through api base fuel self args kwds w s1 s2 text given o)
    by done.
  unfold escape_text.
  erewrite bind_run by reflexivity.
  erewrite bind_run by (by apply Py_TYPE_run).
  by rewrite Hu2.
Qed.

(** Dropping a reference to a live object. *)
Lemma Py_DECREF_run (op : addr) (o : PyObject) (w : world) :
  heap (py w) !! op = Some o ->
  Py_DECREF api (Some op) w =
  Ret (tt,
       {| py := (let s := set_heap (<[op := set_refcnt (ob_refcnt o - 1) o]> (heap (py w)))
                             (py w) in
                 if ob_refcnt o - 1 =? 0 then _Py_Dealloc api op s else s);
          esc_calls := esc_calls w |}).
Proof.
  intros H. unfold Py_DECREF.
  erewrite bind_run by (by apply deref_run). cbn beta zeta.
  erewrite bind_run by reflexivity.
  by destruct (ob_refcnt o - 1 =? 0).
Qed.

End FurtherDispatcher.

(** X9 (delegation to [__html__]).  For a value that is no [Markup], no
    exact number, [bool] or [None], and has an [__html__] attribute,
    [escape] calls it without arguments and returns what it returns, as
    it is, [NULL] included: the result is not escaped and not marked,
    the scalar escaper is not called, and the only thing done after the
    call is to drop the reference to the method. *)
Theorem escape_html_delegation (api : cpython) (base : pytype) (fuel : nat)
    (self args : addr) (kwds : option addr) (w : world) (s1 s2 s3 : pystate)
    (text html : addr) (given : option Z) (o oh : PyObject) (rv : option addr) :
  PyArg_ParseTupleAndKeywords api args kwds "O|i" ["text"; "quotes"] (py w)
    = (Some (text, given), s1) ->
  heap s1 !! text = Some o ->
  PyType_IsSubtype (ob_type o) (Markup base) = false ->
  ob_type o <> PyLong_Type -> ob_type o <> PyFloat_Type -> ob_type o <> PyBool_Type ->
  text <> Py_None ->
  PyObject_GetAttrString api text "__html__" s1 = (Some html, s2) ->
  PyObject_CallObject api html None s2 = (rv, s3) ->
  heap s3 !! html = Some oh ->
  escape api (loaded (genshi_core base)) fuel self args kwds w =
  Ret (rv,
       {| py := (let s4 := set_heap (<[html := set_refcnt (ob_refcnt oh - 1) oh]> (heap s3)) s3 in
                 if ob_refcnt oh - 1 =? 0 then _Py_Dealloc api html s4 else s4);
          esc_calls := esc_calls w |}).
Proof.
  intros Hparse Hheap Hm H1 H2 H3 H4 Hprobe Hcall Hoh.
  rewrite (escape_dispatch api base fuel self args kwds w s1 text given o Hparse Hheap).
  cbn zeta. rewrite Hm.
  unfold PyLong_CheckExact, PyFloat_CheckExact, PyBool_Check.
  rewrite !bool_decide_eq_false_2 by done. cbn [orb].
  erewrite bind_run by (by apply ext_run). cbn iota beta.
  erewrite bind_run by (by apply ext_run). cbn beta.
  by erewrite bind_run by (by apply (Py_DECREF_run api html oh)).
Qed.

(** X10 (a failing conversion).  For a value that is no text, when
    [PyObject_Str] fails [escape] returns [NULL] in the state the
    conversion left, error indicator included: the scalar escaper and
    [Markup] are not called. *)
Theorem escape_conversion_failure (api : cpython) (base : pytype) (fuel : nat)
    (self args : addr) (kwds : option addr) (w : world) (s1 s2 s3 : pystate)
    (text : addr) (given : option Z) (o o2 : PyObject) :
  PyArg_ParseTupleAndKeywords api args kwds "O|i" ["text"; "quotes"] (py w)
    = (Some (text, given), s1) ->
  heap s1 !! text = Some o ->
  PyType_IsSubtype (ob_type o) (Markup base) = false ->
  ob_type o <> PyLong_Type -> ob_type o <> PyFloat_Type -> ob_type o <> PyBool_Type ->
  text <> Py_None ->
  PyObject_GetAttrString api text "__html__" s1 = (None, s2) ->
  heap s2 !! text = Some o2 -> PyUnicode_Check (ob_type o2) = false ->
  PyObject_Str api text (set_curexc None s2) = (None, s3) ->
  escape api (loaded (genshi_core base)) fuel self args kwds w =
  Ret (None, {| py := s3; esc_calls := esc_calls w |}).
Proof. apply escape_str_failure. Qed.

(** X11 (a text with nothing to replace).  For a text object that is no
    [Markup] and has no [__html__], whose text has no character to
    replace, [escape] calls [Markup] on the object itself: no copy of the
    text is made, no object is allocated before that call, and the
    reference the scalar escaper took is dropped after it. *)
Theorem escape_text_zero_copy (api : cpython) (base : pytype) (fuel : nat)
    (self args : addr) (kwds : option addr) (w : world) (s1 s2 : pystate)
    (text : addr) (given : option Z) (o o2 : PyObject) (t : list Py_UNICODE) :
  PyArg_ParseTupleAndKeywords api args kwds "O|i" ["text"; "quotes"] (py w)
    = (Some (text, given), s1) ->
  heap s1 !! text = Some o ->
  PyUnicode_Check (ob_type o) = true ->
  PyType_IsSubtype (ob_type o) (Markup base) = false ->
  text <> Py_None ->
  PyObject_GetAttrString api text "__html__" s1 = (None, s2) ->
  heap s2 !! text = Some o2 -> PyUnicode_Check (ob_type o2) = true ->
  ob_data o2 = DUnicode t -> (length t < fuel)%nat ->
  (forall c, c ∈ t -> replaced (default 1 given) c = false) ->
  escape api (loaded (genshi_core base)) fuel self args kwds w =
  (rv <- ext (tp_call api (Markup base) [text]) ;;
   Py_DECREF api (Some text) ;;
   ret rv)
    {| py := {| heap := <[text := set_refcnt (ob_refcnt o2 + 1) o2]> (heap s2);
                curexc := None; mem_free := mem_free s2 |};
       esc_calls := (text, default 1 given) :: esc_calls w |}.
Proof.
  intros Hparse Hheap Hu Hm Hnone Hprobe Hheap2 Hu2 Ht Hf Hrep.
  rewrite (escape_text_object api base fuel self args kwds w s1 s2 text given o o2)
    by done.
  erewrite bind_run.
  2: { rewrite (escape_unicode_spec api (genshi_core base) fuel text _ o2 t) by done.
       unfold escape_unicode_result.
       rewrite decide_True by (by apply substitutions_none). reflexivity. }
  reflexivity.
Qed.

(** X12 (a text with something to replace).  For such a text object,
    when the allocator can provide the buffer, [escape] calls [Markup]
    on a new text object that holds the escaped text, and drops its
    reference to that object after the call; the object it was given is
    as the [__html__] lookup left it. *)
Theorem escape_text_escaped_copy (api : cpython) (base : pytype) (fuel : nat)
    (self args : addr) (kwds : option addr) (w : world) (s1 s2 : pystate)
    (text : addr) (given : option Z) (o o2 : PyObject) (t : list Py_UNICODE) :
  PyArg_ParseTupleAndKeywords api args kwds "O|i" ["text"; "quotes"] (py w)
    = (Some (text, given), s1) ->
  heap s1 !! text = Some o ->
  PyUnicode_Check (ob_type o) = true ->
  PyType_IsSubtype (ob_type o) (Markup base) = false ->
  text <> Py_None ->
  PyObject_GetAttrString api text "__html__" s1 = (None, s2) ->
  heap s2 !! text = Some o2 -> PyUnicode_Check (ob_type o2) = true ->
  ob_data o2 = DUnicode t -> (length t < fuel)%nat ->
  substitutions (default 1 given) t <> 0%nat ->
  Z.of_nat (length t) + extra_length (default 1 given) t <= mem_free s2 ->
  let quotes := default 1 given in
  let out := fresh (dom (heap s2)) in
  let w' :=
    {| py := {| heap := <[out := {| ob_refcnt := 1; ob_type := PyUnicode_Type;
                                    ob_data := DUnicode (escaped quotes t) |}]> (heap s2);
                curexc := None;
                mem_free := mem_free s2 - (Z.of_nat (length t) + extra_length quotes t) |};
       esc_calls := (text, quotes) :: esc_calls w |} in
  out <> text /\ heap (py w') !! text = Some o2 /\
  escape api (loaded (genshi_core base)) fuel self args kwds w =
  (rv <- ext (tp_call api (Markup base) [out]) ;;
   Py_DECREF api (Some out) ;;
   ret rv) w'.
Proof.
  intros Hparse Hheap Hu Hm Hnone Hprobe Hheap2 Hu2 Ht Hf Hsub Hmem quotes out w'.
  assert (Hout : out <> text).
  { intros E. pose proof (is_fresh (dom (heap s2))) as Hfresh. fold out in Hfresh.
    rewrite E in Hfresh. by apply (elem_of_dom_2 (D := gset addr)) in Hheap2. }
  split; [done|].
  split; [subst w'; cbn [py heap]; by rewrite lookup_insert_ne|].
  rewrite (escape_text_object api base fuel self args kwds w s1 s2 text given o o2)
    by done.
  erewrite bind_run.
  2: { rewrite (escape_unicode_spec api (genshi_core base) fuel text _ o2 t) by done.
       unfold escape_unicode_result.
       rewrite decide_False by done. cbn [py called on_py set_curexc mem_free].
       destruct (Z.ltb_spec (mem_free s2)
                   (Z.of_nat (length t) + extra_length (default 1 given) t)); [lia|].
       reflexivity. }
  reflexivity.
Qed.

(** X13 (any other value).  A value that is no [Markup], no exact number,
    [bool] or [None], has no [__html__] and is no text is converted with
    [PyObject_Str]; when that gives a text object the scalar escaper is
    called on it, once, with the [quotes] of the call (1 when the caller
    gave none), and what it returns is what is marked. *)
Theorem escape_other_value (api : cpython) (base : pytype) (fuel : nat)
    (self args : addr) (kwds : option addr) (w : world) (s1 s2 s3 : pystate)
    (text u : addr) (given : option Z) (o o2 ou : PyObject) (t : list Py_UNICODE) :
  PyArg_ParseTupleAndKeywords api args kwds "O|i" ["text"; "quotes"] (py w)
    = (Some (text, given), s1) ->
  heap s1 !! text = Some o ->
  PyType_IsSubtype (ob_type o) (Markup base) = false ->
  ob_type o <> PyLong_Type -> ob_type o <> PyFloat_Type -> ob_type o <> PyBool_Type ->
  text <> Py_None ->
  PyObject_GetAttrString api text "__html__" s1 = (None, s2) ->
  heap s2 !! text = Some o2 -> PyUnicode_Check (ob_type o2) = false ->
  PyObject_Str api text (set_curexc None s2) = (Some u, s3) ->
  heap s3 !! u = Some ou -> ob_data ou = DUnicode t -> (length t < fuel)%nat ->
  let g := loaded (genshi_core base) in
  let quotes := default 1 given in
  exists x w3,
    escape_unicode api g fuel u quotes {| py := s3; esc_calls := esc_calls w |}
      = Ret (x, w3) /\
    esc_calls w3 = (u, quotes) :: esc_calls w /\
    match x with
    | Some r => text_at (py w3) r (escaped quotes t)
    | None => mem_free s3 < Z.of_nat (length t) + extra_length quotes t
    end /\
    escape api g fuel self args kwds w =
      (Py_DECREF api (Some u) ;; escape_mark api g x) w3.
Proof.
  intros Hparse Hheap Hm H1 H2 H3 Hnone Hprobe Hheap2 Hu2 Hstr Hheap3 Ht Hf g quotes.
  set (w2 := {| py := s3; esc_calls := esc_calls w |}).
  destruct (escape_unicode_returns api (genshi_core base) fuel u quotes ou t w2)
    as (x & w3 & Hrun & Hx); [done..|].
  exists x, w3. repeat split; try done.
  - by apply (escape_unicode_recorded api base fuel u quotes ou t w2 x w3).
  - unfold g.
    rewrite (escape_falls_through api base fuel self args kwds w s1 s2 text given o)
      by done.
    rewrite (escape_text_converts api base fuel text _ o2) by done.
    unfold convert_and_escape.
    erewrite bind_run by (by apply ext_run). cbn iota beta.
    fold w2. by erewrite bind_run by exact Hrun.
Qed.

(** *** The further properties at work in the small interpreter *)

Lemma escape_unicode_effects_witness :
  let w := Interp.world_with 1000 in
  exists x w',
    escape_unicode Interp.api (loaded (genshi_core PyUnicode_Type)) 100 6%positive 1 w
      = Ret (x, w') /\
    (forall op o', op <> 6%positive -> heap (py w) !! op = Some o' ->
                   heap (py w') !! op = Some o').
Proof.
  intros w.
  set (o := Interp.object PyUnicode_Type (DUnicode scenario_input)).
  assert (H1 : heap (py w) !! 6%positive = Some o) by (vm_compute; reflexivity).
  assert (H2 : ob_data o = DUnicode scenario_input) by reflexivity.
  assert (H3 : (length scenario_input < 100)%nat) by (vm_compute; lia).
  destruct (escape_unicode_effects Interp.api (genshi_core PyUnicode_Type) 100 6%positive 1 o
              scenario_input w H1 H2 H3) as (x & w' & Hrun & Hframe & _).
  exists x, w'. split; [exact Hrun|exact Hframe].
Defined.

Lemma escape_unicode_output_safe_witness :
  let w := Interp.world_with 1000 in
  let o := Interp.object PyUnicode_Type (DUnicode scenario_input) in
  let run := escape_unicode Interp.api (loaded (genshi_core PyUnicode_Type)) 100 6%positive 1 w in
  (heap (py w) !! 6%positive = Some o /\ (length scenario_input < 100)%nat /\
   run = Ret (Some 35%positive, world_after run w) /\
   text_at (py (world_after run w)) 35%positive scenario_output) /\
  forall c, c ∈ scenario_output ->
    c <> LT /\ c <> GT /\ ((1 : Z) <> 0 -> c <> DQUOTE /\ c <> SQUOTE).
Proof.
  intros w o run.
  assert (H1 : heap (py w) !! 6%positive = Some o) by (vm_compute; reflexivity).
  assert (H2 : ob_data o = DUnicode scenario_input) by reflexivity.
  assert (H3 : (length scenario_input < 100)%nat) by (vm_compute; lia).
  assert (H4 : run = Ret (Some 35%positive, world_after run w)) by (vm_compute; reflexivity).
  assert (H5 : text_at (py (world_after run w)) 35%positive scenario_output)
    by (eexists; split; [vm_compute; reflexivity|reflexivity]).
  split; [exact (conj H1 (conj H3 (conj H4 H5)))|].
  exact (escape_unicode_output_safe Interp.api (genshi_core PyUnicode_Type) 100 6%positive 1
           o scenario_input scenario_output w (world_after run w) 35%positive
           H1 H2 H3 H4 H5).
Defined.

Lemma escape_unicode_injective_witness :
  let w := Interp.world_with 1000 in
  let o := Interp.object PyUnicode_Type (DUnicode scenario_input) in
  let run := escape_unicode Interp.api (loaded (genshi_core PyUnicode_Type)) 100 6%positive 1 w in
  (heap (py w) !! 6%positive = Some o /\ (length scenario_input < 100)%nat /\
   run = Ret (Some 35%positive, world_after run w) /\
   text_at (py (world_after run w)) 35%positive scenario_output) /\
  scenario_input = scenario_input.
Proof.
  intros w o run.
  assert (H1 : heap (py w) !! 6%positive = Some o) by (vm_compute; reflexivity).
  assert (H2 : ob_data o = DUnicode scenario_input) by reflexivity.
  assert (H3 : (length scenario_input < 100)%nat) by (vm_compute; lia).
  assert (H4 : run = Ret (Some 35%positive, world_after run w)) by (vm_compute; reflexivity).
  assert (H5 : text_at (py (world_after run w)) 35%positive scenario_output)
    by (eexists; split; [vm_compute; reflexivity|reflexivity]).
  split; [exact (conj H1 (conj H3 (conj H4 H5)))|].
  exact (escape_unicode_injective Interp.api (genshi_core PyUnicode_Type) 100 1
           6%positive 6%positive o o scenario_input scenario_input scenario_output
           w w (world_after run w) (world_after run w) 35%positive 35%positive
           H1 H2 H3 H1 H2 H3 H4 H4 H5 H5).
Defined.

Lemma escape_unicode_same_or_longer_witness :
  let w := Interp.world_with 1000 in
  let o := Interp.object PyUnicode_Type (DUnicode scenario_input) in
  let run := escape_unicode Interp.api (loaded (genshi_core PyUnicode_Type)) 100 6%positive 1 w in
  (heap (py w) !! 6%positive = Some o /\ (length scenario_input < 100)%nat /\
   run = Ret (Some 35%positive, world_after run w) /\
   text_at (py (world_after run w)) 35%positive scenario_output) /\
  ((length scenario_input <= length scenario_output)%nat /\
   (35%positive = 6%positive <-> forall c, c ∈ scenario_input -> replaced 1 c = false) /\
   (35%positive = 6%positive -> scenario_output = scenario_input) /\
   (35%positive <> 6%positive ->
    (length scenario_input + 3 <= length scenario_output)%nat)).
Proof.
  intros w o run.
  assert (H1 : heap (py w) !! 6%positive = Some o) by (vm_compute; reflexivity).
  assert (H2 : ob_data o = DUnicode scenario_input) by reflexivity.
  assert (H3 : (length scenario_input < 100)%nat) by (vm_compute; lia).
  assert (H4 : run = Ret (Some 35%positive, world_after run w)) by (vm_compute; reflexivity).
  assert (H5 : text_at (py (world_after run w)) 35%positive scenario_output)
    by (eexists; split; [vm_compute; reflexivity|reflexivity]).
  split; [exact (conj H1 (conj H3 (conj H4 H5)))|].
  exact (escape_unicode_same_or_longer Interp.api (genshi_core PyUnicode_Type) 100
           6%positive 1 o scenario_input scenario_output w (world_after run w) 35%positive
           H1 H2 H3 H4 H5).
Defined.

Lemma escape_unicode_concat_witness :
  let w := concat_world in
  let g := loaded (genshi_core PyUnicode_Type) in
  let run1 := escape_unicode Interp.api g 100 2%positive 1 w in
  let run2 := escape_unicode Interp.api g 100 3%positive 1 w in
  let run3 := escape_unicode Interp.api g 100 4%positive 1 w in
  (text_at (py w) 2%positive (units "a<") /\ text_at (py w) 3%positive (units "&b") /\
   text_at (py w) 4%positive (units "a<" ++ units "&b") /\
   run1 = Ret (Some 5%positive, world_after run1 w) /\
   run2 = Ret (Some 5%positive, world_after run2 w) /\
   run3 = Ret (Some 5%positive, world_after run3 w) /\
   text_at (py (world_after run1 w)) 5%positive (units "a&lt;") /\
   text_at (py (world_after run2 w)) 5%positive (units "&amp;b") /\
   text_at (py (world_after run3 w)) 5%positive (units "a&lt;&amp;b")) /\
  units "a&lt;&amp;b" = units "a&lt;" ++ units "&amp;b".
Proof.
  intros w g run1 run2 run3.
  set (t1 := units "a<"). set (t2 := units "&b").
  set (o1 := Interp.object PyUnicode_Type (DUnicode t1)).
  set (o2 := Interp.object PyUnicode_Type (DUnicode t2)).
  set (o3 := Interp.object PyUnicode_Type (DUnicode (t1 ++ t2))).
  assert (H1 : heap (py w) !! 2%positive = Some o1) by (vm_compute; reflexivity).
  assert (H2 : heap (py w) !! 3%positive = Some o2) by (vm_compute; reflexivity).
  assert (H3 : heap (py w) !! 4%positive = Some o3) by (vm_compute; reflexivity).
  assert (Hf : (length (t1 ++ t2) < 100)%nat) by (vm_compute; lia).
  assert (R1 : run1 = Ret (Some 5%positive, world_after run1 w)) by (vm_compute; reflexivity).
  assert (R2 : run2 = Ret (Some 5%positive, world_after run2 w)) by (vm_compute; reflexivity).
  assert (R3 : run3 = Ret (Some 5%positive, world_after run3 w)) by (vm_compute; reflexivity).
  assert (U1 : text_at (py (world_after run1 w)) 5%positive (units "a&lt;"))
    by (eexists; split; [vm_compute; reflexivity|reflexivity]).
  assert (U2 : text_at (py (world_after run2 w)) 5%positive (units "&amp;b"))
    by (eexists; split; [vm_compute; reflexivity|reflexivity]).
  assert (U3 : text_at (py (world_after run3 w)) 5%positive (units "a&lt;&amp;b"))
    by (eexists; split; [vm_compute; reflexivity|reflexivity]).
  split.
  { exact (conj (ex_intro _ o1 (conj H1 eq_refl))
            (conj (ex_intro _ o2 (conj H2 eq_refl))
            (conj (ex_intro _ o3 (conj H3 eq_refl))
            (conj R1 (conj R2 (conj R3 (conj U1 (conj U2 U3)))))))). }
  exact (escape_unicode_concat Interp.api (genshi_core PyUnicode_Type) 100 1
           2%positive 3%positive 4%positive o1 o2 o3 t1 t2 _ _ _ w w w _ _ _
           5%positive 5%positive 5%positive
           H1 eq_refl H2 eq_refl H3 eq_refl Hf R1 R2 R3 U1 U2 U3).
Defined.

Lemma escape_unicode_twice_witness :
  let w := Interp.world_with 1000 in
  let g := loaded (genshi_core PyUnicode_Type) in
  let run1 := escape_unicode Interp.api g 100 14%positive 1 w in
  let w1 := world_after run1 w in
  let run2 := escape_unicode Interp.api g 100 35%positive 1 w1 in
  (text_at (py w) 14%positive (units "<") /\
   run1 = Ret (Some 35%positive, w1) /\ text_at (py w1) 35%positive (units "&lt;") /\
   run2 = Ret (Some 36%positive, world_after run2 w1) /\
   text_at (py (world_after run2 w1)) 36%positive (units "&amp;lt;")) /\
  (units "&amp;lt;" = units "&lt;" <-> 35%positive = 14%positive) /\
  (35%positive <> 14%positive ->
   (length (units "&lt;") < length (units "&amp;lt;"))%nat /\ 36%positive <> 35%positive).
Proof.
  intros w g run1 w1 run2.
  set (o := Interp.object PyUnicode_Type (DUnicode (units "<"))).
  assert (H1 : heap (py w) !! 14%positive = Some o) by (vm_compute; reflexivity).
  assert (H2 : ob_data o = DUnicode (units "<")) by reflexivity.
  assert (H3 : (length (units "<") < 100)%nat) by (vm_compute; lia).
  assert (R1 : run1 = Ret (Some 35%positive, w1)) by (vm_compute; reflexivity).
  assert (U1 : text_at (py w1) 35%positive (units "&lt;"))
    by (eexists; split; [vm_compute; reflexivity|reflexivity]).
  assert (H4 : (length (units "&lt;") < 100)%nat) by (vm_compute; lia).
  assert (R2 : run2 = Ret (Some 36%positive, world_after run2 w1))
    by (vm_compute; reflexivity).
  assert (U2 : text_at (py (world_after run2 w1)) 36%positive (units "&amp;lt;"))
    by (eexists; split; [vm_compute; reflexivity|reflexivity]).
  split.
  { exact (conj (ex_intro _ o (conj H1 H2)) (conj R1 (conj U1 (conj R2 U2)))). }
  exact (escape_unicode_twice Interp.api (genshi_core PyUnicode_Type) 100 100 14%positive 1
           o (units "<") (units "&lt;") (units "&amp;lt;") w w1 (world_after run2 w1)
           35%positive 36%positive H1 H2 H3 R1 U1 H4 R2 U2).
Defined.

Lemma escape_unicode_quotes_nonzero_witness :
  let w := Interp.world_with 1000 in
  let g := loaded (genshi_core PyUnicode_Type) in
  let run1 := escape_unicode Interp.api g 100 6%positive 1 w in
  let run2 := escape_unicode Interp.api g 100 6%positive 2 w in
  (text_at (py w) 6%positive scenario_input /\ (1 : Z) <> 0 /\ (2 : Z) <> 0 /\
   run1 = Ret (Some 35%positive, world_after run1 w) /\
   run2 = Ret (Some 35%positive, world_after run2 w) /\
   text_at (py (world_after run1 w)) 35%positive scenario_output /\
   text_at (py (world_after run2 w)) 35%positive scenario_output) /\
  scenario_output = scenario_output /\ 35%positive = 35%positive.
Proof.
  intros w g run1 run2.
  set (o := Interp.object PyUnicode_Type (DUnicode scenario_input)).
  assert (H1 : heap (py w) !! 6%positive = Some o) by (vm_compute; reflexivity).
  assert (H2 : ob_data o = DUnicode scenario_input) by reflexivity.
  assert (H3 : (length scenario_input < 100)%nat) by (vm_compute; lia).
  assert (Hq1 : (1 : Z) <> 0) by lia.
  assert (Hq2 : (2 : Z) <> 0) by lia.
  assert (R1 : run1 = Ret (Some 35%positive, world_after run1 w)) by (vm_compute; reflexivity).
  assert (R2 : run2 = Ret (Some 35%positive, world_after run2 w)) by (vm_compute; reflexivity).
  assert (U1 : text_at (py (world_after run1 w)) 35%positive scenario_output)
    by (eexists; split; [vm_compute; reflexivity|reflexivity]).
  assert (U2 : text_at (py (world_after run2 w)) 35%positive scenario_output)
    by (eexists; split; [vm_compute; reflexivity|reflexivity]).
  split.
  { exact (conj (ex_intro _ o (conj H1 H2))
            (conj Hq1 (conj Hq2 (conj R1 (conj R2 (conj U1 U2)))))). }
  exact (escape_unicode_quotes_nonzero Interp.api (genshi_core PyUnicode_Type) 100
           6%positive 1 2 o scenario_input scenario_output scenario_output
           w (world_after run1 w) (world_after run2 w) 35%positive 35%positive
           H1 H2 H3 Hq1 Hq2 R1 R2 U1 U2).
Defined.

Lemma escape_html_delegation_witness :
  let w := Interp.world_with 1000 in
  let s2 := snd (Interp.getattr 13%positive "__html__" (py w)) in
  let s3 := snd (Interp.call 12%positive None s2) in
  let oh := set_refcnt 2 (Interp.object (PyHeapType "method" PyBaseObject_Type)
                            (DTuple [11%positive])) in
  (PyArg_ParseTupleAndKeywords Interp.api 33%positive None "O|i" ["text"; "quotes"] (py w)
     = (Some (13%positive, None), py w) /\
   PyObject_GetAttrString Interp.api 13%positive "__html__" (py w) = (Some 12%positive, s2) /\
   PyObject_CallObject Interp.api 12%positive None s2 = (Some 11%positive, s3) /\
   heap s3 !! 12%positive = Some oh) /\
  escape Interp.api (loaded (genshi_core PyUnicode_Type)) 100 20%positive 33%positive None w =
  Ret (Some 11%positive,
       {| py := (let s4 := set_heap (<[12%positive := set_refcnt (ob_refcnt oh - 1) oh]>
                                       (heap s3)) s3 in
                 if ob_refcnt oh - 1 =? 0 then _Py_Dealloc Interp.api 12%positive s4 else s4);
          esc_calls := esc_calls w |}).
Proof.
  intros w s2 s3 oh.
  set (o := Interp.object (PyHeapType "Trusted" PyLong_Type) (DTuple [12%positive])).
  assert (H1 : PyArg_ParseTupleAndKeywords Interp.api 33%positive None "O|i"
                 ["text"; "quotes"] (py w) = (Some (13%positive, None), py w))
    by (vm_compute; reflexivity).
  assert (H2 : heap (py w) !! 13%positive = Some o) by (vm_compute; reflexivity).
  assert (H3 : PyType_IsSubtype (ob_type o) (Markup PyUnicode_Type) = false)
    by (vm_compute; reflexivity).
  assert (H4 : ob_type o <> PyLong_Type) by discriminate.
  assert (H5 : ob_type o <> PyFloat_Type) by discriminate.
  assert (H6 : ob_type o <> PyBool_Type) by discriminate.
  assert (H7 : 13%positive <> Py_None) by discriminate.
  assert (H8 : PyObject_GetAttrString Interp.api 13%positive "__html__" (py w)
               = (Some 12%positive, s2)) by (vm_compute; reflexivity).
  assert (H9 : PyObject_CallObject Interp.api 12%positive None s2 = (Some 11%positive, s3))
    by (vm_compute; reflexivity).
  assert (H10 : heap s3 !! 12%positive = Some oh) by (vm_compute; reflexivity).
  split; [exact (conj H1 (conj H8 (conj H9 H10)))|].
  exact (escape_html_delegation Interp.api PyUnicode_Type 100 20%positive 33%positive None
           w (py w) s2 s3 13%positive 12%positive None o oh (Some 11%positive)
           H1 H2 H3 H4 H5 H6 H7 H8 H9 H10).
Defined.

Lemma escape_conversion_failure_witness :
  let w := Interp.world_with 1000 in
  let s2 := set_curexc (Some PyExc_AttributeError) (py w) in
  let s3 := set_curexc (Some (PyExc_Exception "ValueError")) (py w) in
  (PyArg_ParseTupleAndKeywords Interp.api 30%positive None "O|i" ["text"; "quotes"] (py w)
     = (Some (10%positive, None), py w) /\
   PyObject_GetAttrString Interp.api 10%positive "__html__" (py w) = (None, s2) /\
   PyObject_Str Interp.api 10%positive (set_curexc None s2) = (None, s3)) /\
  escape Interp.api (loaded (genshi_core PyUnicode_Type)) 100 20%positive 30%positive None w =
  Ret (None, {| py := s3; esc_calls := esc_calls w |}).
Proof.
  intros w s2 s3.
  set (o := Interp.object (PyHeapType "Unprintable" PyBaseObject_Type) DOther).
  assert (H1 : PyArg_ParseTupleAndKeywords Interp.api 30%positive None "O|i"
                 ["text"; "quotes"] (py w) = (Some (10%positive, None), py w))
    by (vm_compute; reflexivity).
  assert (H2 : heap (py w) !! 10%positive = Some o) by (vm_compute; reflexivity).
  assert (H3 : PyType_IsSubtype (ob_type o) (Markup PyUnicode_Type) = false)
    by (vm_compute; reflexivity).
  assert (H4 : ob_type o <> PyLong_Type) by discriminate.
  assert (H5 : ob_type o <> PyFloat_Type) by discriminate.
  assert (H6 : ob_type o <> PyBool_Type) by discriminate.
  assert (H7 : 10%positive <> Py_None) by discriminate.
  assert (H8 : PyObject_GetAttrString Interp.api 10%positive "__html__" (py w) = (None, s2))
    by (vm_compute; reflexivity).
  assert (H9 : heap s2 !! 10%positive = Some o) by (vm_compute; reflexivity).
  assert (H10 : PyUnicode_Check (ob_type o) = false) by (vm_compute; reflexivity).
  assert (H11 : PyObject_Str Interp.api 10%positive (set_curexc None s2) = (None, s3))
    by (vm_compute; reflexivity).
  split; [exact (conj H1 (conj H8 H11))|].
  exact (escape_conversion_failure Interp.api PyUnicode_Type 100 20%positive 30%positive None
           w (py w) s2 s3 10%positive None o o H1 H2 H3 H4 H5 H6 H7 H8 H9 H10 H11).
Defined.

Lemma escape_text_zero_copy_witness :
  let w := Interp.world_with 1000 in
  let t := units "plain text" in
  let o := Interp.object PyUnicode_Type (DUnicode t) in
  let s2 := set_curexc (Some PyExc_AttributeError) (py w) in
  (PyArg_ParseTupleAndKeywords Interp.api 27%positive None "O|i" ["text"; "quotes"] (py w)
     = (Some (7%positive, None), py w) /\
   heap (py w) !! 7%positive = Some o /\
   PyObject_GetAttrString Interp.api 7%positive "__html__" (py w) = (None, s2) /\
   (forall c, c ∈ t -> replaced 1 c = false)) /\
  escape Interp.api (loaded (genshi_core PyUnicode_Type)) 100 20%positive 27%positive None w =
  (rv <- ext (tp_call Interp.api (Markup PyUnicode_Type) [7%positive]) ;;
   Py_DECREF Interp.api (Some 7%positive) ;;
   ret rv)
    {| py := {| heap := <[7%positive := set_refcnt (ob_refcnt o + 1) o]> (heap s2);
                curexc := None; mem_free := mem_free s2 |};
       esc_calls := (7%positive, 1) :: esc_calls w |}.
Proof.
  intros w t o s2.
  assert (H1 : PyArg_ParseTupleAndKeywords Interp.api 27%positive None "O|i"
                 ["text"; "quotes"] (py w) = (Some (7%positive, None), py w))
    by (vm_compute; reflexivity).
  assert (H2 : heap (py w) !! 7%positive = Some o) by (vm_compute; reflexivity).
  assert (H3 : PyUnicode_Check (ob_type o) = true) by (vm_compute; reflexivity).
  assert (H4 : PyType_IsSubtype (ob_type o) (Markup PyUnicode_Type) = false)
    by (vm_compute; reflexivity).
  assert (H5 : 7%positive <> Py_None) by discriminate.
  assert (H6 : PyObject_GetAttrString Interp.api 7%positive "__html__" (py w) = (None, s2))
    by (vm_compute; reflexivity).
  assert (H7 : heap s2 !! 7%positive = Some o) by (vm_compute; reflexivity).
  assert (H8 : ob_data o = DUnicode t) by reflexivity.
  assert (H9 : (length t < 100)%nat) by (vm_compute; lia).
  assert (H10 : forall c, c ∈ t -> replaced (default 1 None) c = false).
  { apply Forall_forall. repeat constructor. }
  split; [exact (conj H1 (conj H2 (conj H6 H10)))|].
  exact (escape_text_zero_copy Interp.api PyUnicode_Type 100 20%positive 27%positive None
           w (py w) s2 7%positive None o o t H1 H2 H3 H4 H5 H6 H7 H3 H8 H9 H10).
Defined.

Lemma escape_text_escaped_copy_witness :
  let w := Interp.world_with 1000 in
  let o := Interp.object PyUnicode_Type (DUnicode scenario_input) in
  let s2 := set_curexc (Some PyExc_AttributeError) (py w) in
  (PyArg_ParseTupleAndKeywords Interp.api 26%positive None "O|i" ["text"; "quotes"] (py w)
     = (Some (6%positive, None), py w) /\
   heap (py w) !! 6%positive = Some o /\
   PyObject_GetAttrString Interp.api 6%positive "__html__" (py w) = (None, s2) /\
   substitutions 1 scenario_input <> 0%nat /\
   Z.of_nat (length scenario_input) + extra_length 1 scenario_input <= mem_free s2) /\
  fresh (dom (heap s2)) <> 6%positive.
Proof.
  intros w o s2.
  assert (H1 : PyArg_ParseTupleAndKeywords Interp.api 26%positive None "O|i"
                 ["text"; "quotes"] (py w) = (Some (6%positive, None), py w))
    by (vm_compute; reflexivity).
  assert (H2 : heap (py w) !! 6%positive = Some o) by (vm_compute; reflexivity).
  assert (H3 : PyUnicode_Check (ob_type o) = true) by (vm_compute; reflexivity).
  assert (H4 : PyType_IsSubtype (ob_type o) (Markup PyUnicode_Type) = false)
    by (vm_compute; reflexivity).
  assert (H5 : 6%positive <> Py_None) by discriminate.
  assert (H6 : PyObject_GetAttrString Interp.api 6%positive "__html__" (py w) = (None, s2))
    by (vm_compute; reflexivity).
  assert (H7 : heap s2 !! 6%positive = Some o) by (vm_compute; reflexivity).
  assert (H8 : ob_data o = DUnicode scenario_input) by reflexivity.
  assert (H9 : (length scenario_input < 100)%nat) by (vm_compute; lia).
  assert (H10 : substitutions (default 1 None) scenario_input <> 0%nat)
    by (vm_compute; discriminate).
  assert (H11 : Z.of_nat (length scenario_input) + extra_length (default 1 None) scenario_input
                <= mem_free s2) by (vm_compute; discriminate).
  split; [exact (conj H1 (conj H2 (conj H6 (conj H10 H11))))|].
  exact (proj1 (escape_text_escaped_copy Interp.api PyUnicode_Type 100 20%positive 26%positive
                  None w (py w) s2 6%positive None o o scenario_input
                  H1 H2 H3 H4 H5 H6 H7 H3 H8 H9 H10 H11)).
Defined.

Lemma escape_other_value_witness :
  let w := Interp.world_with 1000 in
  let g := loaded (genshi_core PyUnicode_Type) in
  let s2 := set_curexc (Some (PyExc_Exception "RuntimeError")) (py w) in
  let s3 := snd (Interp.str 9%positive (set_curexc None s2)) in
  let t := units "<object>" in
  (PyArg_ParseTupleAndKeywords Interp.api 29%positive None "O|i" ["text"; "quotes"] (py w)
     = (Some (9%positive, None), py w) /\
   PyObject_GetAttrString Interp.api 9%positive "__html__" (py w) = (None, s2) /\
   PyObject_Str Interp.api 9%positive (set_curexc None s2) = (Some 35%positive, s3) /\
   text_at s3 35%positive t) /\
  exists x w3,
    escape_unicode Interp.api g 100 35%positive 1 {| py := s3; esc_calls := esc_calls w |}
      = Ret (x, w3) /\
    esc_calls w3 = (35%positive, 1) :: esc_calls w /\
    escape Interp.api g 100 20%positive 29%positive None w =
      (Py_DECREF Interp.api (Some 35%positive) ;; escape_mark Interp.api g x) w3.
Proof.
  intros w g s2 s3 t.
  set (o := Interp.object (PyHeapType "Broken" PyBaseObject_Type) DOther).
  set (ou := Interp.object PyUnicode_Type (DUnicode t)).
  assert (H1 : PyArg_ParseTupleAndKeywords Interp.api 29%positive None "O|i"
                 ["text"; "quotes"] (py w) = (Some (9%positive, None), py w))
    by (vm_compute; reflexivity).
  assert (H2 : heap (py w) !! 9%positive = Some o) by (vm_compute; reflexivity).
  assert (H3 : PyType_IsSubtype (ob_type o) (Markup PyUnicode_Type) = false)
    by (vm_compute; reflexivity).
  assert (H4 : ob_type o <> PyLong_Type) by discriminate.
  assert (H5 : ob_type o <> PyFloat_Type) by discriminate.
  assert (H6 : ob_type o <> PyBool_Type) by discriminate.
  assert (H7 : 9%positive <> Py_None) by discriminate.
  assert (H8 : PyObject_GetAttrString Interp.api 9%positive "__html__" (py w) = (None, s2))
    by (vm_compute; reflexivity).
  assert (H9 : heap s2 !! 9%positive = Some o) by (vm_compute; reflexivity).
  assert (H10 : PyUnicode_Check (ob_type o) = false) by (vm_compute; reflexivity).
  assert (H11 : PyObject_Str Interp.api 9%positive (set_curexc None s2)
                = (Some 35%positive, s3)) by (vm_compute; reflexivity).
  assert (H12 : heap s3 !! 35%positive = Some ou) by (vm_compute; reflexivity).
  assert (H13 : ob_data ou = DUnicode t) by reflexivity.
  assert (H14 : (length t < 100)%nat) by (vm_compute; lia).
  split; [exact (conj H1 (conj H8 (conj H11 (ex_intro _ ou (conj H12 H13)))))|].
  destruct (escape_other_value Interp.api PyUnicode_Type 100 20%positive 29%positive None
              w (py w) s2 s3 9%positive 35%positive None o o ou t
              H1 H2 H3 H4 H5 H6 H7 H8 H9 H10 H11 H12 H13 H14)
    as (x & w3 & Hrun & Hcalls & _ & Hpath).
  exists x, w3. exact (conj Hrun (conj Hcalls Hpath)).
Defined.
